(** * tk-core descriptors: a shallow embedding of [python/tank/descriptor/descriptor.py]

    The module under study is the high-level [Descriptor] wrapper and its
    factory [create_descriptor].  Descriptor objects live in a heap (Python
    objects are references, [copy.copy] allocates), the low-level IO
    descriptor is an interface the wrapper delegates to, and calls that can
    raise run in a state-and-exception monad. *)

From Stdlib Require Import Ascii.
From stdpp Require Import gmap strings pretty.

Local Open Scope string_scope.
#[local] Set Warnings "-clear-no-such-hyp".

(** ** Python values *)

(** The values that flow through this module as arguments and manifest
    entries: [None], integers, strings, and references to heap objects. *)
Inductive PyVal : Type :=
  | VNone
  | VInt (z : Z)
  | VStr (s : string)
  | VRef (l : positive).

#[global] Instance PyVal_eq_dec : EqDecision PyVal.
Proof. solve_decision. Defined.

(** [v == n] for an integer constant [n]. *)
Definition eq_int (v : PyVal) (n : Z) : bool :=
  match v with
  | VInt z => bool_decide (z = n)
  | _ => false
  end.

(** What a call may return where a mapping is expected: a dictionary with
    string keys, or some other value. *)
Inductive PyObj : Type :=
  | ODict (m : gmap string PyVal)
  | OVal (v : PyVal).

(** ** Exceptions *)

(** [TankError] and the subclasses this module can see ([errors.py]);
    [TankDescriptorError] is imported from the descriptor package.
    [AttributeError] is the built-in raised by a failed attribute lookup,
    and [OtherError] stands for anything a backend raises on its own. *)
Inductive Exc : Type :=
  | TankError (message : string)
  | TankDescriptorError (message : string)
  | AttributeError (message : string)
  | OtherError (name : string).

(** ** [os.path] (POSIX flavour) *)

Module posixpath.

Definition is_sep (c : Ascii.ascii) : bool := bool_decide (c = "/"%char).

(** [p.startswith('/')] *)
Definition startswith_sep (p : string) : bool :=
  match p with
  | String c _ => is_sep c
  | EmptyString => false
  end.

(** [p.endswith('/')] *)
Fixpoint endswith_sep (p : string) : bool :=
  match p with
  | EmptyString => false
  | String c EmptyString => is_sep c
  | String _ rest => endswith_sep rest
  end.

(** ['/' in p] *)
Fixpoint contains_sep (p : string) : bool :=
  match p with
  | EmptyString => false
  | String c rest => is_sep c || contains_sep rest
  end.

(** [p == '/' * len(p)] *)
Fixpoint all_sep (p : string) : bool :=
  match p with
  | EmptyString => true
  | String c rest => is_sep c && all_sep rest
  end.

(** [p.rstrip('/')] *)
Fixpoint rstrip_sep (p : string) : string :=
  match p with
  | EmptyString => ""
  | String c rest =>
      let rest' := rstrip_sep rest in
      if is_sep c && bool_decide (rest' = "") then "" else String c rest'
  end.

(** [p[:p.rfind('/') + 1]] *)
Fixpoint upto_last_sep (p : string) : string :=
  match p with
  | EmptyString => ""
  | String c rest =>
      if contains_sep rest then String c (upto_last_sep rest)
      else if is_sep c then "/" else ""
  end.

(** [p.split('/')]: never empty, keeps empty components. *)
Fixpoint split (p : string) : list string :=
  match p with
  | EmptyString => [""]
  | String c rest =>
      if is_sep c then "" :: split rest
      else match split rest with
           | comp :: comps => String c comp :: comps
           | [] => [String c ""]
           end
  end.

(** ['/'.join(comps)] *)
Fixpoint unsplit (comps : list string) : string :=
  match comps with
  | [] => ""
  | [c] => c
  | c :: rest => c +:+ "/" +:+ unsplit rest
  end.

Definition isabs (p : string) : bool := startswith_sep p.

(** [join(a, b)]; the body is one round of the loop over the trailing
    arguments. *)
Definition join (path b : string) : string :=
  if startswith_sep b then b
  else if bool_decide (path = "") || endswith_sep path then path +:+ b
  else path +:+ "/" +:+ b.

(** [join(a, b, c)] *)
Definition join3 (a b c : string) : string := join (join a b) c.

Definition dirname (p : string) : string :=
  let head := upto_last_sep p in
  if negb (bool_decide (head = "")) && negb (all_sep head)
  then rstrip_sep head
  else head.

(** The loop of [normpath] over the components. *)
Definition normpath_step (initial_slashes : nat)
    (new_comps : list string) (comp : string) : list string :=
  if bool_decide (comp = "") || bool_decide (comp = ".") then new_comps
  else if negb (bool_decide (comp = ".."))
          || (bool_decide (initial_slashes = 0%nat) && bool_decide (new_comps = []))
          || (negb (bool_decide (new_comps = []))
              && bool_decide (last new_comps = Some ".."))
  then new_comps ++ [comp]
  else removelast new_comps.

Definition normpath (path : string) : string :=
  if bool_decide (path = "") then "."
  else
    let initial_slashes :=
      match path with
      | String "/" (String "/" (String "/" _)) => 1%nat
      | String "/" (String "/" _) => 2%nat
      | String "/" _ => 1%nat
      | _ => 0%nat
      end in
    let comps := foldl (normpath_step initial_slashes) [] (split path) in
    let path := unsplit comps in
    let path :=
      match initial_slashes with
      | 0%nat => path
      | 1%nat => "/" +:+ path
      | _ => "//" +:+ path
      end in
    if bool_decide (path = "") then "." else path.

(** [abspath(path)] in a process whose working directory is [cwd]. *)
Definition abspath (cwd path : string) : string :=
  normpath (if isabs path then path else join cwd path).

End posixpath.

(** ** Collaborators outside this module *)

(** The arguments [create_descriptor] hands to [create_io_descriptor], in
    positional order. *)
Record IOArgs : Type := {
  arg_sg_connection : PyVal;
  arg_descriptor_type : PyVal;
  arg_dict_or_uri : PyObj;
  arg_bundle_cache_root : string;
  arg_fallback_roots : list string;
  arg_resolve_latest : bool;
  arg_constraint_pattern : option string;
}.

(** The result of a call: a value, or a raised exception. *)
Inductive Outcome (A : Type) : Type :=
  | Return (a : A)
  | Raise (e : Exc).
Arguments Return {A} a.
Arguments Raise {A} e.

Module io_descriptor.

(** Modelled from the spec: the package [.io_descriptor] is not part of
    the sources at hand, so the IO descriptor is the interface that
    section 4.3 of the specification gives it.  Handles are immutable
    with respect to identity, location and version; manifest, changelog
    and deprecation lookups read the disk and never fail;
    [get_latest_version] and the constructor may raise and may touch the
    disk.  The disk is the set of paths that exist. *)
Class Backend : Type := {
  IODescriptor : Type;
  get_dict : IODescriptor → gmap string PyVal;
  get_uri : IODescriptor → string;
  get_path : IODescriptor → string;
  get_version : IODescriptor → string;
  get_system_name : IODescriptor → string;
  is_dev : IODescriptor → bool;
  is_immutable : IODescriptor → bool;
  get_manifest : IODescriptor → gset string → PyObj;
  get_changelog : IODescriptor → gset string → PyVal * PyVal;
  get_deprecation_status : IODescriptor → gset string → bool * PyVal;
  get_latest_version :
    IODescriptor → option string → gset string →
    Outcome IODescriptor * gset string;
  create_io_descriptor :
    IOArgs → gset string → Outcome IODescriptor * gset string;
}.

End io_descriptor.

(** Process-wide settings the module reads: the global roots of
    [LocalFileStorageManager], the working directory, and the location of
    this module's file ([__file__]). *)
Module LocalFileStorageManager.
Inductive PathType : Type := CACHE.
End LocalFileStorageManager.

Class Process : Type := {
  get_global_root : LocalFileStorageManager.PathType → string;
  getcwd : string;
  __file__ : string;
}.

(** ** Objects, the heap and the world *)

(** [Descriptor] and the five classes the factory instantiates.  Each of
    the five derives from [Descriptor]; none derives from another. *)
Inductive Class : Type :=
  | DescriptorClass
  | AppDescriptor
  | EngineDescriptor
  | FrameworkDescriptor
  | ConfigDescriptor
  | CoreDescriptor.

#[global] Instance Class_eq_dec : EqDecision Class.
Proof. solve_decision. Defined.

(** [issubclass(c, k)] *)
Definition issubclass (c k : Class) : bool :=
  bool_decide (c = k) || bool_decide (k = DescriptorClass).

Module object_model.
Section Model.
(** The type of IO descriptor handles. *)
Context {IODescriptor : Type}.

(** An instance: its class, the attribute [_io_descriptor] set by
    [Descriptor.__init__], and whatever else its [__dict__] holds. *)
Record Instance : Type := {
  __class__ : Class;
  _io_descriptor : IODescriptor;
  __dict__ : gmap string PyVal;
}.

(** Calls that leave this module, in the order they were made. *)
Inductive Call : Type :=
  | Call_get_global_root (t : LocalFileStorageManager.PathType)
  | Call_ensure_folder_exists (path : string)
  | Call_create_io_descriptor (args : IOArgs)
  | Call_get_latest_version (io : IODescriptor) (pattern : option string).

Record World : Type := {
  heap : gmap positive Instance;
  disk : gset string;
  calls : list Call;
}.

Definition set_heap (h : gmap positive Instance) (w : World) : World :=
  {| heap := h; disk := disk w; calls := calls w |}.
Definition set_disk (d : gset string) (w : World) : World :=
  {| heap := heap w; disk := d; calls := calls w |}.
Definition log (c : Call) (w : World) : World :=
  {| heap := heap w; disk := disk w; calls := calls w ++ [c] |}.

(** Computations: a world in, an outcome and a world out.  A raised
    exception keeps the effects made before it. *)
Definition M (A : Type) : Type := World → Outcome A * World.

#[export] Instance M_ret : MRet M := λ A a w, (Return a, w).
#[export] Instance M_bind : MBind M := λ A C f m w,
  match m w with
  | (Return a, w') => f a w'
  | (Raise e, w') => (Raise e, w')
  end.

Definition raise {A} (e : Exc) : M A := λ w, (Raise e, w).
Definition get_world : M World := λ w, (Return w, w).
Definition modify (f : World → World) : M unit := λ w, (Return (), f w).

(** Run an external call that may raise and may touch the disk. *)
Definition on_disk {A} (f : gset string → Outcome A * gset string) : M A :=
  λ w, let '(r, d) := f (disk w) in (r, set_disk d w).

(** *** Object primitives *)

(** Read the instance behind a reference. *)
Definition deref (self : positive) : M Instance := λ w,
  match heap w !! self with
  | Some o => (Return o, w)
  | None => (Raise (AttributeError "dangling reference"), w)
  end.

(** Allocate an object at an address not in use. *)
Definition alloc (o : Instance) : M positive := λ w,
  let l := fresh (dom (heap w)) in
  (Return l, set_heap (<[l := o]> (heap w)) w).

(** [cls(io_descriptor)]: allocate, then run [Descriptor.__init__], which
    sets [_io_descriptor] and nothing else.  The five subclasses are
    defined in modules that are not part of the sources at hand; their
    constructors are taken to add nothing to it. *)
Definition new (cls : Class) (io_descriptor : IODescriptor) : M positive :=
  alloc {| __class__ := cls;
           _io_descriptor := io_descriptor;
           __dict__ := ∅ |}.

(** [copy.copy(self)]: a new object of the same class whose attributes
    are bound to the same values. *)
Definition copy_copy (self : positive) : M positive :=
  o ← deref self;
  alloc o.

(** [self._io_descriptor = io] *)
Definition setattr_io_descriptor (self : positive) (io : IODescriptor)
  : M unit :=
  o ← deref self;
  modify (λ w, set_heap
    (<[self := {| __class__ := __class__ o;
                  _io_descriptor := io;
                  __dict__ := __dict__ o |}]> (heap w)) w).

(** [isinstance(other, cls)] for a class of this module. *)
Definition isinstance (other : PyVal) (cls : Class) : M bool := λ w,
  match other with
  | VRef l =>
      match heap w !! l with
      | Some o => (Return (issubclass (__class__ o) cls), w)
      | None => (Return false, w)
      end
  | _ => (Return false, w)
  end.

(** [meta.get(key)]: the entry, [None] when the key is missing; a value
    that is not a mapping has no [get]. *)
Definition dict_get (meta : PyObj) (key : string) : M PyVal :=
  match meta with
  | ODict m => mret (default VNone (m !! key))
  | OVal v => raise (AttributeError "object has no attribute 'get'")
  end.

End Model.
End object_model.
Export object_model.

(** From here on the handles are those of the backend in scope. *)
Abbreviation M := (@object_model.M io_descriptor.IODescriptor).
Abbreviation World := (@object_model.World io_descriptor.IODescriptor).
Abbreviation Instance := (@object_model.Instance io_descriptor.IODescriptor).

Module filesystem.
Section filesystem.
Context `{B : io_descriptor.Backend}.

(** Modelled from the spec: [..util.filesystem] is not part of the
    sources at hand; the specification says of the default root that
    it is "created if missing".  The folder exists afterwards; a
    folder that is already there is left as it is. *)
Definition ensure_folder_exists (path : string) : M unit :=
  _ ← modify (log (Call_ensure_folder_exists path));
  modify (λ w, set_disk ({[path]} ∪ disk w) w).

End filesystem.
End filesystem.

Module Descriptor.

(** [(APP, FRAMEWORK, ENGINE, CONFIG, CORE) = range(5)] *)
Definition APP : Z := 0.
Definition FRAMEWORK : Z := 1.
Definition ENGINE : Z := 2.
Definition CONFIG : Z := 3.
Definition CORE : Z := 4.

Section methods.
Context `{B : io_descriptor.Backend} `{P : Process}.

(** [self._io_descriptor] *)
Definition getattr_io_descriptor (self : positive)
  : M io_descriptor.IODescriptor :=
  o ← deref self;
  mret (_io_descriptor o).

(** [self.__class__] *)
Definition getattr_class (self : positive) : M Class :=
  o ← deref self;
  mret (__class__ o).

Definition get_path (self : positive) : M string :=
  io ← getattr_io_descriptor self;
  mret (io_descriptor.get_path io).

(** [other.get_path()], where [other] is known to be an instance. *)
Definition call_get_path (other : PyVal) : M string :=
  match other with
  | VRef l => get_path l
  | _ => raise (AttributeError "object has no attribute 'get_path'")
  end.

Definition __eq__ (self : positive) (other : PyVal) : M bool :=
  cls ← getattr_class self;
  inst ← isinstance other cls;
  if inst : bool then
    p1 ← get_path self;
    p2 ← call_get_path other;
    mret (bool_decide (p1 = p2))
  else mret false.

(** The operand whose method a comparison operator tries first when it
    is not the left one: the right operand, when it is an instance of a
    proper subclass of the class of the left operand. *)
Definition reflected_operand (other : PyVal) (cls : Class)
  : M (option positive) :=
  w ← get_world;
  mret (match other with
        | VRef l =>
            match heap w !! l with
            | Some o =>
                if negb (bool_decide (__class__ o = cls))
                   && issubclass (__class__ o) cls
                then Some l else None
            | None => None
            end
        | _ => None
        end).

(** [self == other], the operator: it runs the [__eq__] of the operand
    that goes first; [__eq__] always answers with a boolean, so the other
    operand is never asked. *)
Definition eq_operator (self : positive) (other : PyVal) : M bool :=
  cls ← getattr_class self;
  first ← reflected_operand other cls;
  match first with
  | Some l => __eq__ l (VRef self)
  | None => __eq__ self other
  end.

(** [not (self == other)] *)
Definition __ne__ (self : positive) (other : PyVal) : M bool :=
  b ← eq_operator self other;
  mret (negb b).

(** [self != other], the operator. *)
Definition ne_operator (self : positive) (other : PyVal) : M bool :=
  cls ← getattr_class self;
  first ← reflected_operand other cls;
  match first with
  | Some l => __ne__ l (VRef self)
  | None => __ne__ self other
  end.

Definition get_dict (self : positive) : M (gmap string PyVal) :=
  io ← getattr_io_descriptor self;
  mret (io_descriptor.get_dict io).

(** [get_location = get_dict]: a second name bound to the same
    function in the class body. *)
Definition get_location : positive → M (gmap string PyVal) := get_dict.

Definition get_uri (self : positive) : M string :=
  io ← getattr_io_descriptor self;
  mret (io_descriptor.get_uri io).

Definition system_name (self : positive) : M string :=
  io ← getattr_io_descriptor self;
  mret (io_descriptor.get_system_name io).

Definition version (self : positive) : M string :=
  io ← getattr_io_descriptor self;
  mret (io_descriptor.get_version io).

(** [self._io_descriptor.get_manifest()] *)
Definition call_get_manifest (self : positive) : M PyObj :=
  io ← getattr_io_descriptor self;
  w ← get_world;
  mret (io_descriptor.get_manifest io (disk w)).

Definition display_name (self : positive) : M PyVal :=
  meta ← call_get_manifest self;
  display_name ← dict_get meta "display_name";
  if bool_decide (display_name = VNone) then
    name ← system_name self;
    mret (VStr name)
  else mret display_name.

Definition is_dev (self : positive) : M bool :=
  io ← getattr_io_descriptor self;
  mret (io_descriptor.is_dev io).

Definition is_immutable (self : positive) : M bool :=
  io ← getattr_io_descriptor self;
  mret (io_descriptor.is_immutable io).

Definition description (self : positive) : M PyVal :=
  meta ← call_get_manifest self;
  desc ← dict_get meta "description";
  if bool_decide (desc = VNone) then mret (VStr "No description available.")
  else mret desc.

(** [os.path.exists(path)] *)
Definition path_exists (path : string) : M bool :=
  w ← get_world;
  mret (bool_decide (path ∈ disk w)).

Definition icon_256 (self : positive) : M string :=
  io ← getattr_io_descriptor self;
  let app_icon := posixpath.join (io_descriptor.get_path io) "icon_256.png" in
  found ← path_exists app_icon;
  if found : bool then mret app_icon
  else
    let default_icon :=
      posixpath.abspath getcwd
        (posixpath.join3 (posixpath.dirname __file__)
           "resources" "default_bundle_256px.png") in
    mret default_icon.

Definition support_url (self : positive) : M PyVal :=
  meta ← call_get_manifest self;
  support_url ← dict_get meta "support_url";
  if bool_decide (support_url = VNone)
  then mret (VStr "https://support.shotgunsoftware.com")
  else mret support_url.

Definition documentation_url (self : positive) : M PyVal :=
  meta ← call_get_manifest self;
  doc_url ← dict_get meta "documentation_url";
  mret doc_url.

Definition deprecation_status (self : positive) : M (bool * PyVal) :=
  io ← getattr_io_descriptor self;
  w ← get_world;
  mret (io_descriptor.get_deprecation_status io (disk w)).

Definition changelog (self : positive) : M (PyVal * PyVal) :=
  io ← getattr_io_descriptor self;
  w ← get_world;
  mret (io_descriptor.get_changelog io (disk w)).

(** [io.get_latest_version(constraint_pattern)] *)
Definition call_get_latest_version (io : io_descriptor.IODescriptor)
    (constraint_pattern : option string) : M io_descriptor.IODescriptor :=
  _ ← modify (log (Call_get_latest_version io constraint_pattern));
  on_disk (io_descriptor.get_latest_version io constraint_pattern).

Definition find_latest_version (self : positive)
    (constraint_pattern : option string) : M positive :=
  latest ← copy_copy self;
  io ← getattr_io_descriptor self;
  io' ← call_get_latest_version io constraint_pattern;
  _ ← setattr_io_descriptor latest io';
  mret latest.

(** ["%s %s" % (self.system_name, self.version)] *)
Definition __str__ (self : positive) : M string :=
  name ← system_name self;
  v ← version self;
  mret (name +:+ " " +:+ v).

End methods.
End Descriptor.

Section builtins.
Context `{B : io_descriptor.Backend}.

(** [str(v)], as the [%s] conversion calls it: the text of [None], of an
    integer and of a string; an object answers through its [__str__]. *)
Definition py_str (v : PyVal) : M string :=
  match v with
  | VNone => mret "None"
  | VInt z => mret (pretty z)
  | VStr s => mret s
  | VRef l => Descriptor.__str__ l
  end.

End builtins.

Section factory.
Context `{B : io_descriptor.Backend} `{P : Process}.

Definition _get_default_bundle_cache_root : M string :=
  _ ← modify (log (Call_get_global_root LocalFileStorageManager.CACHE));
  mret (posixpath.join (get_global_root LocalFileStorageManager.CACHE)
          "bundle_cache").

(** [create_io_descriptor(...)] *)
Definition call_create_io_descriptor (args : IOArgs)
  : M io_descriptor.IODescriptor :=
  _ ← modify (log (Call_create_io_descriptor args));
  on_disk (io_descriptor.create_io_descriptor args).

Definition create_descriptor
    (sg_connection descriptor_type : PyVal)
    (dict_or_uri : PyObj)
    (bundle_cache_root_override : option string)
    (fallback_roots : option (list string))
    (resolve_latest : bool)
    (constraint_pattern : option string) : M positive :=
  bundle_cache_root_override ←
    match bundle_cache_root_override with
    | None =>
        root ← _get_default_bundle_cache_root;
        _ ← filesystem.ensure_folder_exists root;
        mret root
    | Some root => mret root
    end;
  let fallback_roots := default [] fallback_roots in
  io_descriptor ← call_create_io_descriptor
    {| arg_sg_connection := sg_connection;
       arg_descriptor_type := descriptor_type;
       arg_dict_or_uri := dict_or_uri;
       arg_bundle_cache_root := bundle_cache_root_override;
       arg_fallback_roots := fallback_roots;
       arg_resolve_latest := resolve_latest;
       arg_constraint_pattern := constraint_pattern |};
  if eq_int descriptor_type Descriptor.APP then
    new AppDescriptor io_descriptor
  else if eq_int descriptor_type Descriptor.ENGINE then
    new EngineDescriptor io_descriptor
  else if eq_int descriptor_type Descriptor.FRAMEWORK then
    new FrameworkDescriptor io_descriptor
  else if eq_int descriptor_type Descriptor.CONFIG then
    new ConfigDescriptor io_descriptor
  else if eq_int descriptor_type Descriptor.CORE then
    new CoreDescriptor io_descriptor
  else
    text ← py_str descriptor_type;
    raise (TankDescriptorError ("Unsupported descriptor type " +:+ text)).

End factory.

(** ** A concrete backend for examples *)

(** A small tag-based backend, enough to run the module on concrete
    inputs: a bundle is a name and a version tag, cached under
    [<root>/tags/<name>/<version>]. *)
Module Fixture.

Record Tag : Type := {
  tag_name : string;
  tag_version : string;
  tag_root : string;
}.

Definition tag_dict (t : Tag) : gmap string PyVal :=
  {[ "type" := VStr "tag";
     "name" := VStr (tag_name t);
     "version" := VStr (tag_version t) ]}.

Definition tag_uri (t : Tag) : string :=
  "sgtk:descriptor:tag?name=" +:+ tag_name t
    +:+ "&version=" +:+ tag_version t.

Definition tag_path (t : Tag) : string :=
  posixpath.join
    (posixpath.join (posixpath.join (tag_root t) "tags") (tag_name t))
    (tag_version t).

(** The bundle has a manifest once its [info.yml] is on disk. *)
Definition tag_manifest (t : Tag) (disk : gset string) : PyObj :=
  if bool_decide (posixpath.join (tag_path t) "info.yml" ∈ disk)
  then ODict {[ "display_name" := VStr "Publish";
                "documentation_url" := VNone ]}
  else ODict ∅.

Definition released : list string := ["v1.2.0"; "v1.9.9"; "v1.10.0"].

Definition tag_latest (t : Tag) (pattern : option string)
    (disk : gset string) : Outcome Tag * gset string :=
  match pattern with
  | None =>
      (Return {| tag_name := tag_name t; tag_version := "v1.10.0";
                 tag_root := tag_root t |}, disk)
  | Some v =>
      if bool_decide (v ∈ released)
      then (Return {| tag_name := tag_name t; tag_version := v;
                      tag_root := tag_root t |}, disk)
      else (Raise (TankDescriptorError "no matching version"), disk)
  end.

Definition tag_create (args : IOArgs) (disk : gset string)
  : Outcome Tag * gset string :=
  match arg_dict_or_uri args with
  | ODict m =>
      match m !! "name", m !! "version" with
      | Some (VStr n), Some (VStr v) =>
          (Return {| tag_name := n; tag_version := v;
                     tag_root := arg_bundle_cache_root args |}, disk)
      | _, _ => (Raise (TankDescriptorError "invalid descriptor"), disk)
      end
  | OVal _ => (Raise (TankDescriptorError "invalid descriptor"), disk)
  end.

#[export] Instance backend : io_descriptor.Backend := {|
  io_descriptor.IODescriptor := Tag;
  io_descriptor.get_dict := tag_dict;
  io_descriptor.get_uri := tag_uri;
  io_descriptor.get_path := tag_path;
  io_descriptor.get_version := tag_version;
  io_descriptor.get_system_name := tag_name;
  io_descriptor.is_dev := λ _, false;
  io_descriptor.is_immutable := λ _, true;
  io_descriptor.get_manifest := tag_manifest;
  io_descriptor.get_changelog := λ _ _, (VNone, VNone);
  io_descriptor.get_deprecation_status := λ _ _, (false, VNone);
  io_descriptor.get_latest_version := tag_latest;
  io_descriptor.create_io_descriptor := tag_create;
|}.

#[export] Instance process : Process := {|
  get_global_root := λ _, "/home/artist/.shotgun";
  getcwd := "/jobs";
  __file__ := "/opt/tk-core/python/tank/descriptor/descriptor.py";
|}.

Definition publish : Tag :=
  {| tag_name := "tk-multi-publish"; tag_version := "v1.2.0";
     tag_root := "/cache" |}.

(** The same bundle reached through a root written with a trailing
    slash: another reference, the same place on disk. *)
Definition publish_alt : Tag :=
  {| tag_name := "tk-multi-publish"; tag_version := "v1.2.0";
     tag_root := "/cache/" |}.

Definition app_obj : Instance :=
  {| __class__ := AppDescriptor; _io_descriptor := publish; __dict__ := ∅ |}.
Definition engine_obj : Instance :=
  {| __class__ := EngineDescriptor; _io_descriptor := publish;
     __dict__ := ∅ |}.
Definition app_alt_obj : Instance :=
  {| __class__ := AppDescriptor; _io_descriptor := publish_alt;
     __dict__ := ∅ |}.

(** A world with an app descriptor at address 1, an engine descriptor
    over the same bundle at address 2, a second app descriptor over the
    alternative reference at address 3, and nothing on disk. *)
Definition world : World :=
  {| heap := {[ 1%positive := app_obj; 2%positive := engine_obj;
                3%positive := app_alt_obj ]};
     disk := ∅;
     calls := [] |}.

(** The same heap once the bundle has been downloaded: its manifest and
    its icon are on disk. *)
Definition world_local : World :=
  {| heap := heap world;
     disk := {[ "/cache/tags/tk-multi-publish/v1.2.0/info.yml";
                "/cache/tags/tk-multi-publish/v1.2.0/icon_256.png" ]};
     calls := [] |}.

Definition publish_manifest : gmap string PyVal :=
  {[ "display_name" := VStr "Publish"; "documentation_url" := VNone ]}.

Definition publish_latest : Tag :=
  {| tag_name := "tk-multi-publish"; tag_version := "v1.10.0";
     tag_root := "/cache" |}.

(** A plain [Descriptor] over the same bundle, next to the app
    descriptor. *)
Definition base_obj : Instance :=
  {| __class__ := DescriptorClass; _io_descriptor := publish;
     __dict__ := ∅ |}.

Definition world_base : World :=
  {| heap := {[ 1%positive := app_obj; 2%positive := base_obj ]};
     disk := ∅;
     calls := [] |}.

(** A backend whose manifest lookup hands back [None]. *)
Definition no_mapping_backend : io_descriptor.Backend := {|
  io_descriptor.IODescriptor := Tag;
  io_descriptor.get_dict := tag_dict;
  io_descriptor.get_uri := tag_uri;
  io_descriptor.get_path := tag_path;
  io_descriptor.get_version := tag_version;
  io_descriptor.get_system_name := tag_name;
  io_descriptor.is_dev := λ _, false;
  io_descriptor.is_immutable := λ _, true;
  io_descriptor.get_manifest := λ _ _, OVal VNone;
  io_descriptor.get_changelog := λ _ _, (VNone, VNone);
  io_descriptor.get_deprecation_status := λ _ _, (false, VNone);
  io_descriptor.get_latest_version := tag_latest;
  io_descriptor.create_io_descriptor := tag_create;
|}.

End Fixture.

(** ** [errors.py] *)

Module errors.

(** The exception classes the module defines. *)
Inductive ErrorClass : Type :=
  | TankError
  | TankUnreadableFileError
  | TankFileDoesNotExistError
  | TankNoDefaultValueError
  | TankHookMethodDoesNotExistError
  | TankErrorProjectIsSetup.

#[global] Instance ErrorClass_eq_dec : EqDecision ErrorClass.
Proof. solve_decision. Defined.

Definition all_classes : list ErrorClass :=
  [ TankError; TankUnreadableFileError; TankFileDoesNotExistError;
    TankNoDefaultValueError; TankHookMethodDoesNotExistError;
    TankErrorProjectIsSetup ].

(** [cls.__name__] *)
Definition __name__ (cls : ErrorClass) : string :=
  match cls with
  | TankError => "TankError"
  | TankUnreadableFileError => "TankUnreadableFileError"
  | TankFileDoesNotExistError => "TankFileDoesNotExistError"
  | TankNoDefaultValueError => "TankNoDefaultValueError"
  | TankHookMethodDoesNotExistError => "TankHookMethodDoesNotExistError"
  | TankErrorProjectIsSetup => "TankErrorProjectIsSetup"
  end.

(** The base named in each class statement; [None] is the built-in
    [Exception]. *)
Definition base (cls : ErrorClass) : option ErrorClass :=
  match cls with
  | TankError => None
  | TankUnreadableFileError => Some TankError
  | TankFileDoesNotExistError => Some TankUnreadableFileError
  | TankNoDefaultValueError => Some TankError
  | TankHookMethodDoesNotExistError => Some TankError
  | TankErrorProjectIsSetup => Some TankError
  end.

(** [issubclass(cls, k)], following the chain of bases for at most [n]
    steps. *)
Fixpoint issubclass_upto (n : nat) (cls k : ErrorClass) : bool :=
  bool_decide (cls = k)
  || match n, base cls with
     | S n', Some b => issubclass_upto n' b k
     | _, _ => false
     end.

(** [issubclass(cls, k)]; no chain is longer than the number of classes. *)
Definition issubclass (cls k : ErrorClass) : bool :=
  issubclass_upto (length all_classes) cls k.

(** The truth value of a value, as [or] tests it. *)
Definition truthy (v : PyVal) : bool :=
  match v with
  | VNone => false
  | VInt z => negb (bool_decide (z = 0%Z))
  | VStr s => negb (bool_decide (s = ""))
  | VRef _ => true
  end.

(** An exception object: its class and its [message] attribute. *)
Record Error : Type := {
  error_class : ErrorClass;
  message : PyVal;
}.

(** [TankError.__init__], as defined when [six.PY3] holds:
    [self.message = message or str(self.__class__.__name__)]. *)
Definition TankError__init__ (cls : ErrorClass) (message : PyVal) : PyVal :=
  if truthy message then message else VStr (__name__ cls).

(** Without that definition the constructor is the built-in one of
    Python 2, which keeps a single argument as [message] and leaves
    [message] empty otherwise. *)
Definition Exception__init__ (args : list PyVal) : PyVal :=
  match args with
  | [a] => a
  | _ => VStr ""
  end.

Definition project_is_setup_message : string :=
  "You are trying to set up a project which has already been set up. "
  +:+ "If you want to do this, make sure to set the force parameter.".

(** What calling a class yields: an exception object, or a [TypeError]
    for a wrong number of arguments. *)
Inductive Constructed : Type :=
  | Built (e : Error)
  | TypeError.

(** Calling the class [cls] on the positional arguments [args]. *)
Definition construct (PY3 : bool) (cls : ErrorClass) (args : list PyVal)
  : Constructed :=
  match cls with
  | TankErrorProjectIsSetup =>
      match args with
      | [] =>
          let msg := VStr project_is_setup_message in
          Built {| error_class := cls;
                   message := if PY3 then TankError__init__ cls msg
                              else Exception__init__ [msg] |}
      | _ => TypeError
      end
  | _ =>
      if PY3 then
        match args with
        | [] => Built {| error_class := cls;
                         message := TankError__init__ cls VNone |}
        | [m] => Built {| error_class := cls;
                          message := TankError__init__ cls m |}
        | _ => TypeError
        end
      else Built {| error_class := cls; message := Exception__init__ args |}
  end.

End errors.

(** ** Vocabulary of the properties *)

Section vocabulary.
Context `{B : io_descriptor.Backend} `{P : Process}.

(** What a manifest-backed accessor yields for [key]: the entry, or
    [dflt] when the key is missing or bound to [None]. *)
Definition manifest_field
    (m : gmap string PyVal) (key : string) (dflt : PyVal) : PyVal :=
  match m !! key with
  | Some v => if bool_decide (v = VNone) then dflt else v
  | None => dflt
  end.

(** A computation has the same outcome in two worlds. *)
Definition same_outcome {A} (f : M A) (w1 w2 : World) : Prop :=
  (f w1).1 = (f w2).1.

(** Every accessor of [d] has the same outcome in two worlds. *)
Definition accessors_agree (d : positive) (w1 w2 : World) : Prop :=
  same_outcome (Descriptor.get_dict d) w1 w2
  ∧ same_outcome (Descriptor.get_location d) w1 w2
  ∧ same_outcome (Descriptor.get_uri d) w1 w2
  ∧ same_outcome (Descriptor.get_path d) w1 w2
  ∧ same_outcome (Descriptor.system_name d) w1 w2
  ∧ same_outcome (Descriptor.version d) w1 w2
  ∧ same_outcome (Descriptor.is_dev d) w1 w2
  ∧ same_outcome (Descriptor.is_immutable d) w1 w2
  ∧ same_outcome (Descriptor.display_name d) w1 w2
  ∧ same_outcome (Descriptor.description d) w1 w2
  ∧ same_outcome (Descriptor.icon_256 d) w1 w2
  ∧ same_outcome (Descriptor.support_url d) w1 w2
  ∧ same_outcome (Descriptor.documentation_url d) w1 w2
  ∧ same_outcome (Descriptor.deprecation_status d) w1 w2
  ∧ same_outcome (Descriptor.changelog d) w1 w2.

(** The five recognised kinds, each with the class the factory is to
    instantiate for it. *)
Definition kind_variants : list (Z * Class) :=
  [ (Descriptor.APP, AppDescriptor);
    (Descriptor.ENGINE, EngineDescriptor);
    (Descriptor.FRAMEWORK, FrameworkDescriptor);
    (Descriptor.CONFIG, ConfigDescriptor);
    (Descriptor.CORE, CoreDescriptor) ].

Definition recognised (descriptor_type : PyVal) : Prop :=
  ∃ k cls, (k, cls) ∈ kind_variants ∧ descriptor_type = VInt k.

(** The path of the process-wide default bundle cache. *)
Definition default_bundle_cache_root : string :=
  posixpath.join (get_global_root LocalFileStorageManager.CACHE)
    "bundle_cache".

(** The arguments the factory hands to [create_io_descriptor] once it
    has settled on a cache root. *)
Definition factory_args
    (sg_connection descriptor_type : PyVal) (dict_or_uri : PyObj)
    (root : string) (fallback_roots : option (list string))
    (resolve_latest : bool) (constraint_pattern : option string) : IOArgs :=
  {| arg_sg_connection := sg_connection;
     arg_descriptor_type := descriptor_type;
     arg_dict_or_uri := dict_or_uri;
     arg_bundle_cache_root := root;
     arg_fallback_roots := default [] fallback_roots;
     arg_resolve_latest := resolve_latest;
     arg_constraint_pattern := constraint_pattern |}.

(** The last step of the factory on its own: binding a constructed IO
    descriptor into the class the kind selects. *)
Definition bind_by_kind
    (descriptor_type : PyVal) (io : io_descriptor.IODescriptor)
  : M positive :=
  if eq_int descriptor_type Descriptor.APP then new AppDescriptor io
  else if eq_int descriptor_type Descriptor.ENGINE then
    new EngineDescriptor io
  else if eq_int descriptor_type Descriptor.FRAMEWORK then
    new FrameworkDescriptor io
  else if eq_int descriptor_type Descriptor.CONFIG then
    new ConfigDescriptor io
  else if eq_int descriptor_type Descriptor.CORE then
    new CoreDescriptor io
  else
    text ← py_str descriptor_type;
    raise (TankDescriptorError ("Unsupported descriptor type " +:+ text)).

(** The world in which the factory constructs the IO descriptor: as it
    was when an override is given; otherwise after the provider has been
    asked and the default root has been made to exist. *)
Definition world_at_construction
    (bundle_cache_root_override : option string) (w : World) : World :=
  match bundle_cache_root_override with
  | Some _ => w
  | None =>
      set_disk ({[default_bundle_cache_root]} ∪ disk w)
        (log (Call_ensure_folder_exists default_bundle_cache_root)
           (log (Call_get_global_root LocalFileStorageManager.CACHE) w))
  end.

(** The path of the built-in icon. *)
Definition default_icon : string :=
  posixpath.abspath getcwd
    (posixpath.join3 (posixpath.dirname __file__)
       "resources" "default_bundle_256px.png").

End vocabulary.

(** * Properties *)

(** ** Running computations *)

Ltac unfold_monad :=
  unfold mbind, M_bind, mret, M_ret, raise, get_world, modify, on_disk in *.

Ltac unfold_accessors :=
  unfold Descriptor.get_location, Descriptor.get_dict, Descriptor.get_uri,
    Descriptor.get_path, Descriptor.system_name, Descriptor.version,
    Descriptor.is_dev, Descriptor.is_immutable, Descriptor.display_name,
    Descriptor.description, Descriptor.support_url,
    Descriptor.documentation_url, Descriptor.deprecation_status,
    Descriptor.changelog, Descriptor.icon_256, Descriptor.path_exists,
    Descriptor.call_get_manifest, Descriptor.getattr_io_descriptor,
    Descriptor.getattr_class in *.

Section running.
Context `{B : io_descriptor.Backend} `{P : Process}.

Lemma deref_allocated (w : World) (self : positive) (o : Instance) :
  heap w !! self = Some o → deref self w = (Return o, w).
Proof. intros Hs. unfold deref. by rewrite Hs. Qed.

Lemma getattr_io_descriptor_allocated
    (w : World) (self : positive) (o : Instance) :
  heap w !! self = Some o →
  Descriptor.getattr_io_descriptor self w = (Return (_io_descriptor o), w).
Proof.
  intros Hs. unfold Descriptor.getattr_io_descriptor. unfold_monad.
  by rewrite (deref_allocated _ _ _ Hs).
Qed.

Lemma get_path_allocated (w : World) (self : positive) (o : Instance) :
  heap w !! self = Some o →
  Descriptor.get_path self w
  = (Return (io_descriptor.get_path (_io_descriptor o)), w).
Proof.
  intros Hs. unfold Descriptor.get_path. unfold_monad.
  by rewrite (getattr_io_descriptor_allocated _ _ _ Hs).
Qed.

Lemma isinstance_allocated
    (w : World) (l : positive) (o : Instance) (cls : Class) :
  heap w !! l = Some o →
  isinstance (VRef l) cls w = (Return (issubclass (__class__ o) cls), w).
Proof. intros Hl. unfold isinstance. by rewrite Hl. Qed.

(** The guard of [__eq__]: what the comparison returns once the
    [isinstance] test has been decided. *)
Lemma eq_not_instance
    (w : World) (self : positive) (o : Instance) (other : PyVal) :
  heap w !! self = Some o →
  isinstance other (__class__ o) w = (Return false, w) →
  Descriptor.__eq__ self other w = (Return false, w).
Proof.
  intros Hs Hi. unfold Descriptor.__eq__, Descriptor.getattr_class.
  unfold_monad. rewrite (deref_allocated _ _ _ Hs). by rewrite Hi.
Qed.

Lemma eq_instance
    (w : World) (d1 d2 : positive) (o1 o2 : Instance) :
  heap w !! d1 = Some o1 →
  heap w !! d2 = Some o2 →
  issubclass (__class__ o2) (__class__ o1) = true →
  Descriptor.__eq__ d1 (VRef d2) w
  = (Return (bool_decide (io_descriptor.get_path (_io_descriptor o1)
                          = io_descriptor.get_path (_io_descriptor o2))), w).
Proof.
  intros H1 H2 Hsub. unfold Descriptor.__eq__, Descriptor.getattr_class.
  unfold_monad. rewrite (deref_allocated _ _ _ H1).
  rewrite (isinstance_allocated _ _ _ _ H2), Hsub.
  rewrite (get_path_allocated _ _ _ H1). simpl.
  by rewrite (get_path_allocated _ _ _ H2).
Qed.

(** The operators.  A right operand that is not an instance of the class
    of the left one does not go first. *)
Lemma reflected_operand_not_instance
    (w : World) (other : PyVal) (cls : Class) :
  isinstance other cls w = (Return false, w) →
  Descriptor.reflected_operand other cls w = (Return None, w).
Proof.
  unfold isinstance, Descriptor.reflected_operand. unfold_monad.
  destruct other as [|z|s|l]; try done.
  destruct (heap w !! l) as [o|]; [|done].
  intros [= Hsub]. by rewrite Hsub, andb_false_r.
Qed.

Lemma eq_operator_not_instance
    (w : World) (self : positive) (o : Instance) (other : PyVal) :
  heap w !! self = Some o →
  isinstance other (__class__ o) w = (Return false, w) →
  Descriptor.eq_operator self other w = (Return false, w).
Proof.
  intros Hs Hi. unfold Descriptor.eq_operator, Descriptor.getattr_class.
  unfold_monad. rewrite (deref_allocated _ _ _ Hs).
  rewrite (reflected_operand_not_instance _ _ _ Hi).
  by apply eq_not_instance with o.
Qed.

Lemma ne_not_instance
    (w : World) (self : positive) (o : Instance) (other : PyVal) :
  heap w !! self = Some o →
  isinstance other (__class__ o) w = (Return false, w) →
  Descriptor.__ne__ self other w = (Return true, w).
Proof.
  intros Hs Hi. unfold Descriptor.__ne__. unfold_monad.
  by rewrite (eq_operator_not_instance _ _ _ _ Hs Hi).
Qed.

Lemma ne_operator_not_instance
    (w : World) (self : positive) (o : Instance) (other : PyVal) :
  heap w !! self = Some o →
  isinstance other (__class__ o) w = (Return false, w) →
  Descriptor.ne_operator self other w = (Return true, w).
Proof.
  intros Hs Hi. unfold Descriptor.ne_operator, Descriptor.getattr_class.
  unfold_monad. rewrite (deref_allocated _ _ _ Hs).
  rewrite (reflected_operand_not_instance _ _ _ Hi).
  by apply ne_not_instance with o.
Qed.

(** Between two descriptors the operator [==] asks for the same class and
    the same path, whichever operand goes first. *)
Lemma eq_operator_descriptors
    (w : World) (d1 d2 : positive) (o1 o2 : Instance) :
  heap w !! d1 = Some o1 →
  heap w !! d2 = Some o2 →
  Descriptor.eq_operator d1 (VRef d2) w
  = (Return (bool_decide (__class__ o1 = __class__ o2)
             && bool_decide (io_descriptor.get_path (_io_descriptor o1)
                             = io_descriptor.get_path (_io_descriptor o2))),
     w).
Proof.
  intros H1 H2.
  unfold Descriptor.eq_operator, Descriptor.getattr_class,
    Descriptor.reflected_operand.
  unfold_monad. rewrite (deref_allocated _ _ _ H1). simpl. rewrite H2.
  destruct (decide (__class__ o2 = __class__ o1)) as [Hc|Hc].
  - rewrite (bool_decide_eq_true_2 _ Hc). simpl.
    rewrite (bool_decide_eq_true_2 (__class__ o1 = __class__ o2))
      by done.
    apply eq_instance; [done..|]. unfold issubclass.
    by rewrite (bool_decide_eq_true_2 _ Hc).
  - rewrite (bool_decide_eq_false_2 _ Hc). simpl.
    rewrite (bool_decide_eq_false_2 (__class__ o1 = __class__ o2))
      by congruence.
    simpl. destruct (issubclass (__class__ o2) (__class__ o1)) eqn:Hsub.
    + apply eq_not_instance with o2; [done|].
      rewrite (isinstance_allocated _ _ _ _ H1).
      unfold issubclass in *.
      rewrite (bool_decide_eq_false_2 _ Hc) in Hsub. simpl in Hsub.
      apply bool_decide_eq_true_1 in Hsub.
      rewrite !bool_decide_eq_false_2; [done|congruence..].
    + apply eq_not_instance with o1; [done|].
      by rewrite (isinstance_allocated _ _ _ _ H2), Hsub.
Qed.

(** [self.__ne__(other)] negates the operator. *)
Lemma ne_descriptors
    (w : World) (d1 d2 : positive) (o1 o2 : Instance) :
  heap w !! d1 = Some o1 →
  heap w !! d2 = Some o2 →
  Descriptor.__ne__ d1 (VRef d2) w
  = (Return (negb (bool_decide (__class__ o1 = __class__ o2)
                   && bool_decide
                        (io_descriptor.get_path (_io_descriptor o1)
                         = io_descriptor.get_path (_io_descriptor o2)))),
     w).
Proof.
  intros H1 H2. unfold Descriptor.__ne__. unfold_monad.
  by rewrite (eq_operator_descriptors _ _ _ _ _ H1 H2).
Qed.

Lemma ne_operator_descriptors
    (w : World) (d1 d2 : positive) (o1 o2 : Instance) :
  heap w !! d1 = Some o1 →
  heap w !! d2 = Some o2 →
  Descriptor.ne_operator d1 (VRef d2) w
  = (Return (negb (bool_decide (__class__ o1 = __class__ o2)
                   && bool_decide
                        (io_descriptor.get_path (_io_descriptor o1)
                         = io_descriptor.get_path (_io_descriptor o2)))),
     w).
Proof.
  intros H1 H2.
  unfold Descriptor.ne_operator, Descriptor.getattr_class,
    Descriptor.reflected_operand.
  unfold_monad. rewrite (deref_allocated _ _ _ H1). simpl. rewrite H2.
  destruct (negb _ && _).
  - rewrite (ne_descriptors _ _ _ _ _ H2 H1). do 3 f_equal.
    f_equal; apply bool_decide_ext; naive_solver.
  - by apply ne_descriptors.
Qed.

End running.

(** ** Equality *)

Section equality.
Context `{B : io_descriptor.Backend} `{P : Process}.

(** C3, as amended: for two descriptors [d1] and [d2] of the same concrete
    class, [d1 == d2] returns [True] exactly when the two resolved local
    paths are equal, and [False] otherwise, both as the operator and as
    the method called on [d1]; the location references the two were built
    from play no part. *)
Theorem eq_same_class_iff_same_path
    (w : World) (d1 d2 : positive) (o1 o2 : Instance) :
  heap w !! d1 = Some o1 →
  heap w !! d2 = Some o2 →
  __class__ o1 = __class__ o2 →
  ∃ b : bool,
    Descriptor.eq_operator d1 (VRef d2) w = (Return b, w)
    ∧ Descriptor.__eq__ d1 (VRef d2) w = (Return b, w)
    ∧ (b = true ↔
       io_descriptor.get_path (_io_descriptor o1)
       = io_descriptor.get_path (_io_descriptor o2)).
Proof.
  intros H1 H2 Hc. eexists. split; [|split].
  - rewrite (eq_operator_descriptors _ _ _ _ _ H1 H2).
    by rewrite (bool_decide_eq_true_2 _ Hc).
  - apply eq_instance; [done..|]. unfold issubclass.
    by rewrite (bool_decide_eq_true_2 (__class__ o2 = __class__ o1)).
  - apply bool_decide_eq_true.
Qed.

(** C10: equality is gated on the class.  When [other] is not an instance
    of the class of [d], [d == other] is [False] and [d != other] is
    [True], whatever the paths are: so answer the methods of [d], and so
    answer the operators. *)
Theorem eq_gated_on_class
    (w : World) (d : positive) (o : Instance) (other : PyVal) :
  heap w !! d = Some o →
  isinstance other (__class__ o) w = (Return false, w) →
  Descriptor.__eq__ d other w = (Return false, w)
  ∧ Descriptor.__ne__ d other w = (Return true, w)
  ∧ Descriptor.eq_operator d other w = (Return false, w)
  ∧ Descriptor.ne_operator d other w = (Return true, w).
Proof.
  intros Hd Hi. split; [|split; [|split]].
  - by apply eq_not_instance with o.
  - by apply ne_not_instance with o.
  - by apply eq_operator_not_instance with o.
  - by apply ne_operator_not_instance with o.
Qed.

(** Two descriptors of different concrete kinds are unequal even over the
    same path. *)
Lemma eq_different_kinds
    (w : World) (d1 d2 : positive) (o1 o2 : Instance) :
  heap w !! d1 = Some o1 →
  heap w !! d2 = Some o2 →
  __class__ o1 ≠ DescriptorClass →
  __class__ o2 ≠ __class__ o1 →
  Descriptor.__eq__ d1 (VRef d2) w = (Return false, w).
Proof.
  intros H1 H2 Hk Hne. apply eq_not_instance with o1; [done|].
  rewrite (isinstance_allocated _ _ _ _ H2). unfold issubclass.
  by rewrite !bool_decide_eq_false_2.
Qed.

End equality.

(** C3 refuted as stated: an app descriptor and an engine descriptor over
    the same bundle resolve to the same local path, yet [==] returns
    [False]. *)
Lemma eq_same_path_counterexample :
  Descriptor.get_path 1%positive Fixture.world
  = (Return "/cache/tags/tk-multi-publish/v1.2.0", Fixture.world)
  ∧ Descriptor.get_path 2%positive Fixture.world
    = (Return "/cache/tags/tk-multi-publish/v1.2.0", Fixture.world)
  ∧ Descriptor.__eq__ 1%positive (VRef 2%positive) Fixture.world
    = (Return false, Fixture.world).
Proof. by vm_compute. Qed.

Lemma eq_same_class_iff_same_path_witness :
  ∃ b : bool,
    Descriptor.eq_operator 1%positive (VRef 3%positive) Fixture.world
    = (Return b, Fixture.world)
    ∧ Descriptor.__eq__ 1%positive (VRef 3%positive) Fixture.world
      = (Return b, Fixture.world)
    ∧ (b = true ↔
       io_descriptor.get_path (_io_descriptor Fixture.app_obj)
       = io_descriptor.get_path (_io_descriptor Fixture.app_alt_obj)).
Proof.
  apply (eq_same_class_iff_same_path Fixture.world 1 3
           Fixture.app_obj Fixture.app_alt_obj); reflexivity.
Defined.

Lemma eq_gated_on_class_witness :
  Descriptor.__eq__ 1%positive (VRef 2%positive) Fixture.world
  = (Return false, Fixture.world)
  ∧ Descriptor.__ne__ 1%positive (VRef 2%positive) Fixture.world
    = (Return true, Fixture.world)
  ∧ Descriptor.eq_operator 1%positive (VRef 2%positive) Fixture.world
    = (Return false, Fixture.world)
  ∧ Descriptor.ne_operator 1%positive (VRef 2%positive) Fixture.world
    = (Return true, Fixture.world).
Proof.
  apply (eq_gated_on_class Fixture.world 1 Fixture.app_obj (VRef 2));
    reflexivity.
Defined.

(** ** Accessors *)

Module posixpath_facts.
Import posixpath.

Lemma append_nonempty_r (a b : string) : b ≠ "" → a +:+ b ≠ "".
Proof. intros Hb. destruct a; [done|]. simpl. discriminate. Qed.

Lemma join_nonempty (a b : string) : b ≠ "" → join a b ≠ "".
Proof.
  intros Hb. unfold join.
  destruct (startswith_sep b); [done|].
  destruct (_ || _); auto using append_nonempty_r.
Qed.

Lemma normpath_nonempty (p : string) : normpath p ≠ "".
Proof.
  unfold normpath. case_bool_decide; [done|].
  by case_bool_decide.
Qed.

Lemma abspath_nonempty (cwd p : string) : abspath cwd p ≠ "".
Proof. apply normpath_nonempty. Qed.

End posixpath_facts.

Section accessors.
Context `{B : io_descriptor.Backend} `{P : Process}.

(** C9: [get_location] is [get_dict] under its former name: the two are
    the same function, and on every descriptor both return the
    dictionary form held by the bound IO descriptor. *)
Theorem get_location_is_get_dict :
  Descriptor.get_location = Descriptor.get_dict
  ∧ ∀ (w : World) (d : positive) (o : Instance),
      heap w !! d = Some o →
      Descriptor.get_location d w
      = (Return (io_descriptor.get_dict (_io_descriptor o)), w)
      ∧ Descriptor.get_dict d w
        = (Return (io_descriptor.get_dict (_io_descriptor o)), w).
Proof.
  split; [reflexivity|]. intros w d o Hd.
  unfold Descriptor.get_location, Descriptor.get_dict. unfold_monad.
  by rewrite (getattr_io_descriptor_allocated _ _ _ Hd).
Qed.

Lemma call_get_manifest_allocated
    (w : World) (d : positive) (o : Instance) :
  heap w !! d = Some o →
  Descriptor.call_get_manifest d w
  = (Return (io_descriptor.get_manifest (_io_descriptor o) (disk w)), w).
Proof.
  intros Hd. unfold Descriptor.call_get_manifest. unfold_monad.
  by rewrite (getattr_io_descriptor_allocated _ _ _ Hd).
Qed.

Lemma dict_get_mapping (m : gmap string PyVal) (key : string) (w : World) :
  dict_get (ODict m) key w = (Return (default VNone (m !! key)), w).
Proof. reflexivity. Qed.

Lemma manifest_field_missing
    (m : gmap string PyVal) (key : string) (dflt : PyVal) :
  m !! key = None → manifest_field m key dflt = dflt.
Proof. intros Hk. unfold manifest_field. by rewrite Hk. Qed.

Lemma manifest_field_present
    (m : gmap string PyVal) (key : string) (dflt v : PyVal) :
  m !! key = Some v → v ≠ VNone → manifest_field m key dflt = v.
Proof.
  intros Hk Hv. unfold manifest_field. rewrite Hk.
  by rewrite bool_decide_eq_false_2.
Qed.

(** C6: on a bundle without a manifest, [description] is the fixed text
    and [icon_256] is a path that is not empty: the bundle's own
    [icon_256.png] when it exists under [get_path()], the built-in icon
    otherwise. *)
Theorem no_manifest_defaults
    (w : World) (d : positive) (o : Instance) :
  heap w !! d = Some o →
  io_descriptor.get_manifest (_io_descriptor o) (disk w) = ODict ∅ →
  Descriptor.description d w
  = (Return (VStr "No description available."), w)
  ∧ ∃ icon : string,
      Descriptor.icon_256 d w = (Return icon, w)
      ∧ icon ≠ ""
      ∧ let app_icon :=
          posixpath.join (io_descriptor.get_path (_io_descriptor o))
            "icon_256.png" in
        (app_icon ∈ disk w → icon = app_icon)
        ∧ (app_icon ∉ disk w → icon = default_icon).
Proof.
  intros Hd Hm. split.
  - unfold Descriptor.description. unfold_monad.
    rewrite (call_get_manifest_allocated _ _ _ Hd), Hm.
    by rewrite dict_get_mapping.
  - unfold Descriptor.icon_256, Descriptor.path_exists. unfold_monad.
    rewrite (getattr_io_descriptor_allocated _ _ _ Hd). simpl.
    case_bool_decide as Hicon.
    + eexists. split; [reflexivity|]. split.
      * by apply posixpath_facts.join_nonempty.
      * done.
    + eexists. split; [reflexivity|]. split.
      * apply posixpath_facts.abspath_nonempty.
      * done.
Qed.

(** C7: when [get_manifest] returns a mapping, the six metadata accessors
    all return: the manifest-backed ones yield the entry or, for a key
    that is missing, their default ([display_name] the system name,
    [documentation_url] [None]); [changelog] and [deprecation_status]
    yield what the IO descriptor reports.  None of them raises. *)
Theorem metadata_accessors_total
    (w : World) (d : positive) (o : Instance) (m : gmap string PyVal) :
  heap w !! d = Some o →
  io_descriptor.get_manifest (_io_descriptor o) (disk w) = ODict m →
  let io := _io_descriptor o in
  Descriptor.display_name d w
  = (Return (manifest_field m "display_name"
               (VStr (io_descriptor.get_system_name io))), w)
  ∧ Descriptor.description d w
    = (Return (manifest_field m "description"
                 (VStr "No description available.")), w)
  ∧ Descriptor.support_url d w
    = (Return (manifest_field m "support_url"
                 (VStr "https://support.shotgunsoftware.com")), w)
  ∧ Descriptor.documentation_url d w
    = (Return (manifest_field m "documentation_url" VNone), w)
  ∧ Descriptor.changelog d w
    = (Return (io_descriptor.get_changelog io (disk w)), w)
  ∧ Descriptor.deprecation_status d w
    = (Return (io_descriptor.get_deprecation_status io (disk w)), w)
  ∧ ∀ key dflt, m !! key = None → manifest_field m key dflt = dflt.
Proof.
  intros Hd Hm io.
  pose proof (call_get_manifest_allocated _ _ _ Hd) as Hcall.
  pose proof (getattr_io_descriptor_allocated _ _ _ Hd) as Hio.
  rewrite Hm in Hcall.
  repeat split.
  - unfold Descriptor.display_name, Descriptor.system_name. unfold_monad.
    rewrite Hcall, dict_get_mapping. unfold manifest_field.
    destruct (m !! "display_name") as [v|]; simpl.
    + case_bool_decide; [|done]. by rewrite Hio.
    + by rewrite Hio.
  - unfold Descriptor.description. unfold_monad.
    rewrite Hcall, dict_get_mapping. unfold manifest_field.
    destruct (m !! "description") as [v|]; simpl; [|done].
    by case_bool_decide.
  - unfold Descriptor.support_url. unfold_monad.
    rewrite Hcall, dict_get_mapping. unfold manifest_field.
    destruct (m !! "support_url") as [v|]; simpl; [|done].
    by case_bool_decide.
  - unfold Descriptor.documentation_url. unfold_monad.
    rewrite Hcall, dict_get_mapping. unfold manifest_field.
    destruct (m !! "documentation_url") as [v|]; simpl; [|done].
    by case_bool_decide; subst.
  - unfold Descriptor.changelog. unfold_monad. by rewrite Hio.
  - unfold Descriptor.deprecation_status. unfold_monad. by rewrite Hio.
  - apply manifest_field_missing.
Qed.

End accessors.

(** ** Resolving the latest version *)

Section latest.
Context `{B : io_descriptor.Backend} `{P : Process}.

Lemma fresh_not_allocated (w : World) :
  heap w !! fresh (dom (heap w)) = None.
Proof. apply not_elem_of_dom, is_fresh. Qed.

Lemma fresh_ne_allocated (w : World) (d : positive) (o : Instance) :
  heap w !! d = Some o → fresh (dom (heap w)) ≠ d.
Proof.
  intros Hd Heq. pose proof (fresh_not_allocated w) as Hf.
  rewrite Heq in Hf. congruence.
Qed.

(** The whole run of [find_latest_version] on an allocated descriptor:
    the copy lands at a fresh address; the query is logged and run
    against the disk; on success the copy is rebound, on failure it is
    left behind as it was made. *)
Lemma find_latest_version_run
    (w : World) (d : positive) (o : Instance) (p : option string) :
  heap w !! d = Some o →
  let latest := fresh (dom (heap w)) in
  let query :=
    io_descriptor.get_latest_version (_io_descriptor o) p (disk w) in
  let log' :=
    (calls w ++ [Call_get_latest_version (_io_descriptor o) p])%list in
  Descriptor.find_latest_version d p w
  = match query.1 with
    | Return io' =>
        (Return latest,
         {| heap := <[latest := {| __class__ := __class__ o;
                                   _io_descriptor := io';
                                   __dict__ := __dict__ o |}]>
                      (<[latest := o]> (heap w));
            disk := query.2;
            calls := log' |})
    | Raise e =>
        (Raise e,
         {| heap := <[latest := o]> (heap w);
            disk := query.2;
            calls := log' |})
    end.
Proof.
  intros Hd latest query log'.
  unfold Descriptor.find_latest_version, copy_copy, alloc,
    Descriptor.call_get_latest_version, setattr_io_descriptor,
    Descriptor.getattr_io_descriptor.
  unfold_monad. rewrite (deref_allocated _ _ _ Hd).
  unfold deref at 1. simpl.
  rewrite lookup_insert_ne by (by apply fresh_ne_allocated with o).
  rewrite Hd. simpl. fold latest. fold query.
  destruct query as [[io'|e] dk]; simpl; [|done].
  unfold deref. simpl. by rewrite lookup_insert_eq.
Qed.

(** Accessors read the instance behind the reference and the disk, and
    nothing else. *)
Lemma accessors_agree_intro (d : positive) (w1 w2 : World) :
  heap w1 !! d = heap w2 !! d →
  disk w1 = disk w2 →
  accessors_agree d w1 w2.
Proof.
  destruct w1 as [h1 dk1 c1], w2 as [h2 dk2 c2]. simpl.
  intros Hh <-. unfold accessors_agree, same_outcome.
  unfold_accessors. unfold Descriptor.system_name,
    Descriptor.getattr_io_descriptor, deref, dict_get.
  unfold_monad.
  destruct (h2 !! d) as [o|] eqn:H2;
    repeat split; simpl;
    repeat (first [rewrite Hh | rewrite H2 | case_match]; simplify_eq/=);
    by (reflexivity || congruence).
Qed.

(** C1: [find_latest_version] leaves the descriptor it is called on as it
    was.  Whatever the query does (return or raise), the object behind
    [d1] is the same afterwards: same class, same bound IO descriptor,
    same other attributes.  Hence [d1.version] is what it was, and every
    accessor of [d1] answers as it would have before the call on the
    disk the query left. *)
Theorem find_latest_version_frame
    (w : World) (d1 : positive) (o : Instance) (p : option string) :
  heap w !! d1 = Some o →
  let w' := (Descriptor.find_latest_version d1 p w).2 in
  heap w' !! d1 = Some o
  ∧ Descriptor.version d1 w
    = (Return (io_descriptor.get_version (_io_descriptor o)), w)
  ∧ Descriptor.version d1 w'
    = (Return (io_descriptor.get_version (_io_descriptor o)), w')
  ∧ accessors_agree d1 (set_disk (disk w') w) w'
  ∧ (disk w' = disk w → accessors_agree d1 w w').
Proof.
  intros Hd w'.
  assert (Hframe : heap w' !! d1 = Some o).
  { unfold w'. rewrite (find_latest_version_run _ _ _ _ Hd).
    pose proof (fresh_ne_allocated _ _ _ Hd) as Hne.
    destruct (io_descriptor.get_latest_version _ _ _) as [[io'|e] dk];
      simpl; by rewrite !lookup_insert_ne. }
  split; [done|].
  assert (Hversion : ∀ w0 : World, heap w0 !! d1 = Some o →
    Descriptor.version d1 w0
    = (Return (io_descriptor.get_version (_io_descriptor o)), w0)).
  { intros w0 H0. unfold Descriptor.version. unfold_monad.
    by rewrite (getattr_io_descriptor_allocated _ _ _ H0). }
  split; [by apply Hversion|]. split; [by apply Hversion|].
  split.
  - apply accessors_agree_intro; simpl; [by rewrite Hframe|done].
  - intros Hdisk. apply accessors_agree_intro; [by rewrite Hframe|done].
Qed.

(** C2: when the IO descriptor's [get_latest_version(p)] returns [io'],
    [find_latest_version(p)] returns a descriptor at an address that was
    not in use before (so it is not [d]), of the class of [d], bound to
    exactly [io']. *)
Theorem find_latest_version_new
    (w : World) (d : positive) (o : Instance) (p : option string)
    (io' : io_descriptor.IODescriptor) (dk' : gset string) :
  heap w !! d = Some o →
  io_descriptor.get_latest_version (_io_descriptor o) p (disk w)
  = (Return io', dk') →
  ∃ (d2 : positive) (w' : World) (o2 : Instance),
    Descriptor.find_latest_version d p w = (Return d2, w')
    ∧ d2 ≠ d
    ∧ heap w !! d2 = None
    ∧ heap w' !! d2 = Some o2
    ∧ __class__ o2 = __class__ o
    ∧ _io_descriptor o2 = io'
    ∧ __dict__ o2 = __dict__ o.
Proof.
  intros Hd Hq. rewrite (find_latest_version_run _ _ _ _ Hd), Hq. simpl.
  eexists _, _, _. split; [reflexivity|]. simpl.
  split; [by apply fresh_ne_allocated with o|].
  split; [apply fresh_not_allocated|].
  by rewrite lookup_insert_eq.
Qed.

(** When the query raises, so does [find_latest_version], with the same
    exception. *)
Lemma find_latest_version_raises
    (w : World) (d : positive) (o : Instance) (p : option string)
    (e : Exc) (dk' : gset string) :
  heap w !! d = Some o →
  io_descriptor.get_latest_version (_io_descriptor o) p (disk w)
  = (Raise e, dk') →
  (Descriptor.find_latest_version d p w).1 = Raise e.
Proof.
  intros Hd Hq. by rewrite (find_latest_version_run _ _ _ _ Hd), Hq.
Qed.

End latest.

(** ** The factory *)

Section factory_properties.
Context `{B : io_descriptor.Backend} `{P : Process}.

(** The branches of the factory on the kind, as run on a world. *)
Lemma new_run (cls : Class) (io : io_descriptor.IODescriptor) (w : World) :
  let l := fresh (dom (heap w)) in
  new cls io w
  = (Return l,
     set_heap (<[l := {| __class__ := cls; _io_descriptor := io;
                         __dict__ := ∅ |}]> (heap w)) w).
Proof. reflexivity. Qed.

Lemma kind_variants_cases (k : Z) (cls : Class) :
  (k, cls) ∈ kind_variants ↔
  (k = 0%Z ∧ cls = AppDescriptor)
  ∨ (k = 2%Z ∧ cls = EngineDescriptor)
  ∨ (k = 1%Z ∧ cls = FrameworkDescriptor)
  ∨ (k = 3%Z ∧ cls = ConfigDescriptor)
  ∨ (k = 4%Z ∧ cls = CoreDescriptor).
Proof.
  unfold kind_variants, Descriptor.APP, Descriptor.ENGINE,
    Descriptor.FRAMEWORK, Descriptor.CONFIG, Descriptor.CORE.
  rewrite !elem_of_cons, elem_of_nil. naive_solver.
Qed.

Lemma recognised_int (z : Z) :
  recognised (VInt z) ↔ z = 0%Z ∨ z = 2%Z ∨ z = 1%Z ∨ z = 3%Z ∨ z = 4%Z.
Proof.
  unfold recognised. split.
  - intros (k & cls & Hin%kind_variants_cases & Heq). naive_solver.
  - intros Hz.
    destruct Hz as [->|[->|[->|[->| ->]]]];
      [ exists 0%Z, AppDescriptor | exists 2%Z, EngineDescriptor
      | exists 1%Z, FrameworkDescriptor | exists 3%Z, ConfigDescriptor
      | exists 4%Z, CoreDescriptor ];
      (split; [apply kind_variants_cases; naive_solver | done]).
Qed.

Lemma recognised_is_int (v : PyVal) : recognised v → ∃ z, v = VInt z.
Proof. intros (k & cls & _ & ->). by eexists. Qed.

(** The factory, step by step: settle on a root, construct the IO
    descriptor there, bind it by kind. *)
Lemma create_descriptor_run
    (sg_connection descriptor_type : PyVal) (dict_or_uri : PyObj)
    (bundle_cache_root_override : option string)
    (fallback_roots : option (list string))
    (resolve_latest : bool) (constraint_pattern : option string)
    (w : World) :
  let root := default default_bundle_cache_root bundle_cache_root_override in
  let args := factory_args sg_connection descriptor_type dict_or_uri root
                fallback_roots resolve_latest constraint_pattern in
  let w0 := world_at_construction bundle_cache_root_override w in
  let built := io_descriptor.create_io_descriptor args (disk w0) in
  let w1 := set_disk built.2 (log (Call_create_io_descriptor args) w0) in
  create_descriptor sg_connection descriptor_type dict_or_uri
    bundle_cache_root_override fallback_roots resolve_latest
    constraint_pattern w
  = match built.1 with
    | Return io => bind_by_kind descriptor_type io w1
    | Raise e => (Raise e, w1)
    end.
Proof.
  intros root args w0 built w1.
  unfold create_descriptor, call_create_io_descriptor,
    _get_default_bundle_cache_root, filesystem.ensure_folder_exists.
  unfold_monad. subst w1 built w0 args root.
  unfold factory_args, world_at_construction, default_bundle_cache_root.
  destruct bundle_cache_root_override as [root'|]; simpl;
    by destruct (io_descriptor.create_io_descriptor _ _) as [[io|e] dk'].
Qed.

(** Binding by kind allocates at most one object and touches neither the
    disk nor the record of calls. *)
(** [str] reads the heap and changes nothing. *)
Lemma py_str_run (v : PyVal) (w : World) :
  py_str v w = ((py_str v w).1, w).
Proof.
  destruct v as [|z|s|l]; try reflexivity.
  unfold py_str, Descriptor.__str__, Descriptor.system_name,
    Descriptor.version, Descriptor.getattr_io_descriptor, deref.
  unfold_monad.
  destruct (heap w !! l) eqn:Hl; simpl; rewrite ?Hl; reflexivity.
Qed.

Lemma py_str_heap (v : PyVal) (w1 w2 : World) :
  heap w1 = heap w2 → (py_str v w1).1 = (py_str v w2).1.
Proof.
  intros Hh. destruct v as [|z|s|l]; try reflexivity.
  unfold py_str, Descriptor.__str__, Descriptor.system_name,
    Descriptor.version, Descriptor.getattr_io_descriptor, deref.
  unfold_monad. rewrite Hh.
  destruct (heap w2 !! l) eqn:Hl; simpl; rewrite ?Hh, ?Hl; reflexivity.
Qed.

(** What the factory raises for a kind it does not recognise: the error
    naming the kind, or whatever [str] of the kind raised. *)
Lemma unsupported_kind_run
    (descriptor_type : PyVal) (w : World) :
  (text ← py_str descriptor_type;
   raise (A := positive)
     (TankDescriptorError ("Unsupported descriptor type " +:+ text))) w
  = (match (py_str descriptor_type w).1 with
     | Return text =>
         Raise (TankDescriptorError ("Unsupported descriptor type " +:+ text))
     | Raise e => Raise e
     end, w).
Proof.
  unfold_monad. rewrite (py_str_run descriptor_type w).
  by destruct (py_str descriptor_type w).1.
Qed.

Lemma bind_by_kind_run
    (descriptor_type : PyVal) (io : io_descriptor.IODescriptor) (w : World) :
  match descriptor_type with
  | VInt z =>
      ∀ cls, (z, cls) ∈ kind_variants →
             bind_by_kind descriptor_type io w = new cls io w
  | _ => True
  end
  ∧ (¬ recognised descriptor_type →
     bind_by_kind descriptor_type io w
     = (match (py_str descriptor_type w).1 with
        | Return text =>
            Raise (TankDescriptorError
                     ("Unsupported descriptor type " +:+ text))
        | Raise e => Raise e
        end, w))
  ∧ disk (bind_by_kind descriptor_type io w).2 = disk w
  ∧ calls (bind_by_kind descriptor_type io w).2 = calls w.
Proof.
  unfold bind_by_kind, Descriptor.APP, Descriptor.ENGINE,
    Descriptor.FRAMEWORK, Descriptor.CONFIG, Descriptor.CORE.
  unfold eq_int.
  destruct descriptor_type as [|z|s|l]; cbv beta iota;
    try (rewrite unsupported_kind_run; by repeat split).
  repeat split.
  - intros cls Hin%kind_variants_cases.
    destruct Hin as [[-> ->]|[[-> ->]|[[-> ->]|[[-> ->]|[-> ->]]]]];
      reflexivity.
  - rewrite recognised_int. intros Hn.
    rewrite !bool_decide_eq_false_2; [|intros ->; apply Hn; auto..].
    apply unsupported_kind_run.
  - by repeat case_bool_decide.
  - by repeat case_bool_decide.
Qed.

Ltac use_bind_by_kind_run :=
  match goal with
  | |- context [bind_by_kind ?t ?io ?w1] =>
      destruct (bind_by_kind_run t io w1) as (_ & _ & Hdisk & Hcalls)
  end.

(** C4, as amended: the factory raises exactly when the construction of
    the IO descriptor raises or the kind is not one of the five recognised
    ones.  An exception of the construction comes out as it is, whatever
    the kind.  When the construction returns and the kind is not
    recognised, the error is [TankDescriptorError] with the text
    ["Unsupported descriptor type "] followed by [str] of the kind.  When
    the construction returns and the kind is recognised, the result is a
    new object of the matching class, bound to the constructed IO
    descriptor. *)
Theorem create_descriptor_kind_dispatch
    (sg_connection descriptor_type : PyVal) (dict_or_uri : PyObj)
    (bundle_cache_root_override : option string)
    (fallback_roots : option (list string))
    (resolve_latest : bool) (constraint_pattern : option string)
    (w : World) :
  let root := default default_bundle_cache_root bundle_cache_root_override in
  let w0 := world_at_construction bundle_cache_root_override w in
  let built :=
    io_descriptor.create_io_descriptor
      (factory_args sg_connection descriptor_type dict_or_uri root
         fallback_roots resolve_latest constraint_pattern) (disk w0) in
  let r := create_descriptor sg_connection descriptor_type dict_or_uri
             bundle_cache_root_override fallback_roots resolve_latest
             constraint_pattern w in
  ((∃ e, r.1 = Raise e) ↔
   (∃ e, built.1 = Raise e) ∨ ¬ recognised descriptor_type)
  ∧ (∀ e, built.1 = Raise e → r.1 = Raise e)
  ∧ (∀ io text,
       built.1 = Return io →
       ¬ recognised descriptor_type →
       py_str descriptor_type w = (Return text, w) →
       r.1 = Raise (TankDescriptorError
                      ("Unsupported descriptor type " +:+ text)))
  ∧ (∀ io k cls,
       built.1 = Return io →
       (k, cls) ∈ kind_variants → descriptor_type = VInt k →
       ∃ (l : positive) (o : Instance),
         r.1 = Return l
         ∧ heap w !! l = None
         ∧ heap r.2 !! l = Some o
         ∧ __class__ o = cls
         ∧ _io_descriptor o = io).
Proof.
  intros root w0 built r. unfold r. rewrite create_descriptor_run.
  fold root. fold w0. fold built.
  destruct built as [[io|e] dk']; simpl.
  2: { split; [|split; [|split]]; try (intros; by simplify_eq).
       split; [intros _; left; by eexists | intros _; by eexists]. }
  set (w1 := set_disk dk' _).
  assert (Hheap : heap w1 = heap w).
  { unfold w1, w0, world_at_construction.
    by destruct bundle_cache_root_override. }
  clearbody w1.
  destruct (bind_by_kind_run descriptor_type io w1)
    as (Hrec & Hnot & _ & _).
  assert (Hnew : ∀ k cls, (k, cls) ∈ kind_variants →
    descriptor_type = VInt k →
    ∃ (l : positive) (o : Instance),
      (bind_by_kind descriptor_type io w1).1 = Return l
      ∧ heap w !! l = None
      ∧ heap (bind_by_kind descriptor_type io w1).2 !! l = Some o
      ∧ __class__ o = cls
      ∧ _io_descriptor o = io).
  { intros k cls Hin ->. rewrite (Hrec cls Hin), new_run. simpl.
    eexists _, _. split; [reflexivity|]. rewrite Hheap. split.
    - apply not_elem_of_dom, is_fresh.
    - by rewrite lookup_insert_eq. }
  split; [|split; [|split]].
  - split.
    + intros [e He]. right. intros (k & cls & Hin & Hk).
      destruct (Hnew k cls Hin Hk) as (l & o & Hl & _). congruence.
    + intros [[e He]|Hn]; [discriminate He|].
      rewrite (Hnot Hn). simpl.
      destruct (py_str descriptor_type w1).1; by eexists.
  - intros e He. discriminate He.
  - intros io0 text _ Hn Htext. rewrite (Hnot Hn). simpl.
    by rewrite (py_str_heap descriptor_type w1 w Hheap), Htext.
  - intros io0 k cls [= <-] Hin Hk. exact (Hnew k cls Hin Hk).
Qed.

(** C5: without an override the factory asks the provider for the
    global root, makes sure [<global root>/bundle_cache] exists, and
    constructs the IO descriptor on that root, on a disk that holds it;
    with an override the only call that leaves the module is the
    construction of the IO descriptor, on the supplied root and on the
    disk as it was. *)
Theorem create_descriptor_cache_root
    (sg_connection descriptor_type : PyVal) (dict_or_uri : PyObj)
    (fallback_roots : option (list string))
    (resolve_latest : bool) (constraint_pattern : option string)
    (w : World) :
  (let root :=
     posixpath.join (get_global_root LocalFileStorageManager.CACHE)
       "bundle_cache" in
   let args := factory_args sg_connection descriptor_type dict_or_uri root
                 fallback_roots resolve_latest constraint_pattern in
   let w' := (create_descriptor sg_connection descriptor_type dict_or_uri
                None fallback_roots resolve_latest constraint_pattern w).2 in
   calls w' = (calls w ++ [Call_get_global_root LocalFileStorageManager.CACHE;
                           Call_ensure_folder_exists root;
                           Call_create_io_descriptor args])%list
   ∧ root ∈ ({[root]} ∪ disk w : gset string)
   ∧ disk w'
     = (io_descriptor.create_io_descriptor args ({[root]} ∪ disk w)).2)
  ∧ ∀ root : string,
      let args := factory_args sg_connection descriptor_type dict_or_uri
                    root fallback_roots resolve_latest constraint_pattern in
      let w' := (create_descriptor sg_connection descriptor_type dict_or_uri
                   (Some root) fallback_roots resolve_latest
                   constraint_pattern w).2 in
      calls w' = (calls w ++ [Call_create_io_descriptor args])%list
      ∧ disk w' = (io_descriptor.create_io_descriptor args (disk w)).2.
Proof.
  split.
  - intros root args w'. subst w'. rewrite create_descriptor_run. simpl.
    subst args root.
    change (posixpath.join (get_global_root LocalFileStorageManager.CACHE)
              "bundle_cache") with default_bundle_cache_root.
    set (args := factory_args _ _ _ _ _ _ _).
    split; [|split; [set_solver|]].
    + destruct (io_descriptor.create_io_descriptor args _) as [[io|e] dk'];
        simpl; [|by rewrite <- !app_assoc].
      use_bind_by_kind_run. rewrite Hcalls.
      simpl. by rewrite <- !app_assoc.
    + destruct (io_descriptor.create_io_descriptor args _) as [[io|e] dk'];
        simpl; [|done].
      use_bind_by_kind_run. by rewrite Hdisk.
  - intros root args w'. subst w'. rewrite create_descriptor_run. simpl.
    fold args.
    destruct (io_descriptor.create_io_descriptor args _) as [[io|e] dk'];
      simpl; [|done].
    use_bind_by_kind_run. by rewrite Hdisk, Hcalls.
Qed.

End factory_properties.

(** ** The properties at work on the example backend *)

Import Fixture.

Lemma find_latest_version_frame_witness :
  heap Fixture.world !! 1%positive = Some Fixture.app_obj
  ∧ heap (Descriptor.find_latest_version 1%positive None Fixture.world).2
      !! 1%positive = Some Fixture.app_obj.
Proof.
  split; [reflexivity|].
  destruct (find_latest_version_frame Fixture.world 1 Fixture.app_obj None
              eq_refl) as [Hframe _].
  exact Hframe.
Defined.

Lemma find_latest_version_new_witness :
  ∃ (d2 : positive) (w' : World) (o2 : Instance),
    Descriptor.find_latest_version 1%positive None Fixture.world
    = (Return d2, w')
    ∧ d2 ≠ 1%positive
    ∧ heap Fixture.world !! d2 = None
    ∧ heap w' !! d2 = Some o2
    ∧ __class__ o2 = AppDescriptor
    ∧ _io_descriptor o2 = Fixture.publish_latest
    ∧ __dict__ o2 = ∅.
Proof.
  apply (find_latest_version_new Fixture.world 1 Fixture.app_obj None
           Fixture.publish_latest ∅); reflexivity.
Defined.

Lemma create_descriptor_kind_dispatch_witness :
  ∃ (l : positive) (o : Instance),
    (create_descriptor VNone (VInt Descriptor.ENGINE)
       (ODict (Fixture.tag_dict Fixture.publish)) (Some "/cache") None
       false None Fixture.world).1 = Return l
    ∧ heap Fixture.world !! l = None
    ∧ heap (create_descriptor VNone (VInt Descriptor.ENGINE)
              (ODict (Fixture.tag_dict Fixture.publish)) (Some "/cache") None
              false None Fixture.world).2 !! l
      = Some o
    ∧ __class__ o = EngineDescriptor
    ∧ _io_descriptor o = Fixture.publish.
Proof.
  destruct (create_descriptor_kind_dispatch VNone (VInt Descriptor.ENGINE)
              (ODict (Fixture.tag_dict Fixture.publish)) (Some "/cache") None
              false None Fixture.world)
    as (_ & _ & _ & Hkind).
  apply (Hkind Fixture.publish Descriptor.ENGINE EngineDescriptor).
  - vm_compute. reflexivity.
  - unfold kind_variants. apply list_elem_of_further, list_elem_of_here.
  - reflexivity.
Defined.

(** C4 refuted as stated: the kind is recognised, yet the call raises,
    because the backend rejects the location before the kind is looked
    at. *)
Lemma create_descriptor_kind_counterexample :
  recognised (VInt Descriptor.APP)
  ∧ (create_descriptor VNone (VInt Descriptor.APP) (OVal (VStr "bogus"))
       None None false None Fixture.world).1
    = Raise (TankDescriptorError "invalid descriptor").
Proof.
  split.
  - exists Descriptor.APP, AppDescriptor. split; [|reflexivity].
    unfold kind_variants. apply list_elem_of_here.
  - vm_compute. reflexivity.
Qed.

Lemma no_manifest_defaults_witness :
  Descriptor.description 1%positive Fixture.world
  = (Return (VStr "No description available."), Fixture.world)
  ∧ ∃ icon : string,
      Descriptor.icon_256 1%positive Fixture.world
      = (Return icon, Fixture.world)
      ∧ icon ≠ ""
      ∧ let app_icon :=
          posixpath.join
            (io_descriptor.get_path (_io_descriptor Fixture.app_obj))
            "icon_256.png" in
        (app_icon ∈ disk Fixture.world → icon = app_icon)
        ∧ (app_icon ∉ disk Fixture.world → icon = default_icon).
Proof.
  apply (no_manifest_defaults Fixture.world 1 Fixture.app_obj);
    reflexivity.
Defined.

Lemma metadata_accessors_total_witness :
  Descriptor.display_name 1%positive Fixture.world_local
  = (Return (manifest_field Fixture.publish_manifest "display_name"
               (VStr "tk-multi-publish")), Fixture.world_local)
  ∧ Descriptor.description 1%positive Fixture.world_local
    = (Return (manifest_field Fixture.publish_manifest "description"
                 (VStr "No description available.")), Fixture.world_local).
Proof.
  assert (Hm : io_descriptor.get_manifest (_io_descriptor Fixture.app_obj)
                 (disk Fixture.world_local)
               = ODict Fixture.publish_manifest).
  { vm_compute. reflexivity. }
  destruct (metadata_accessors_total Fixture.world_local 1 Fixture.app_obj
              Fixture.publish_manifest eq_refl Hm) as (Hname & Hdesc & _).
  split; [exact Hname | exact Hdesc].
Defined.

Lemma get_location_is_get_dict_witness :
  Descriptor.get_location 1%positive Fixture.world
  = (Return (Fixture.tag_dict Fixture.publish), Fixture.world)
  ∧ Descriptor.get_dict 1%positive Fixture.world
    = (Return (Fixture.tag_dict Fixture.publish), Fixture.world).
Proof.
  destruct get_location_is_get_dict as [_ Hsame].
  apply (Hsame Fixture.world 1%positive Fixture.app_obj). reflexivity.
Defined.

(** *** Worked examples *)

(** The non-mutation scenario of the specification: the latest version is
    [v1.10.0] (not [v1.9.9]); the new descriptor reports it while the
    original still reports [v1.2.0]. *)
Example latest_version_of_publish :
  let r := Descriptor.find_latest_version 1%positive None Fixture.world in
  r.1 = Return 4%positive
  ∧ (Descriptor.version 4%positive r.2).1 = Return "v1.10.0"
  ∧ (Descriptor.version 1%positive r.2).1 = Return "v1.2.0".
Proof. vm_compute. by repeat split. Qed.

(** A constraint nothing matches: the call raises, and the original is
    still there, as it was. *)
Example latest_version_no_match :
  let r := Descriptor.find_latest_version 1%positive (Some "v9.x.x")
             Fixture.world in
  r.1 = Raise (TankDescriptorError "no matching version")
  ∧ (Descriptor.version 1%positive r.2).1 = Return "v1.2.0".
Proof. vm_compute. by repeat split. Qed.

Example unsupported_kind_int :
  (create_descriptor VNone (VInt 7)
     (ODict (Fixture.tag_dict Fixture.publish)) None None false None
     Fixture.world).1
  = Raise (TankDescriptorError "Unsupported descriptor type 7").
Proof. vm_compute. reflexivity. Qed.

Example unsupported_kind_string :
  (create_descriptor VNone (VStr "app")
     (ODict (Fixture.tag_dict Fixture.publish)) None None false None
     Fixture.world).1
  = Raise (TankDescriptorError "Unsupported descriptor type app").
Proof. vm_compute. reflexivity. Qed.

(** A descriptor object passed as the kind is printed through its
    [__str__]. *)
Example unsupported_kind_object :
  (create_descriptor VNone (VRef 1%positive)
     (ODict (Fixture.tag_dict Fixture.publish)) None None false None
     Fixture.world).1
  = Raise (TankDescriptorError
             "Unsupported descriptor type tk-multi-publish v1.2.0").
Proof. vm_compute. reflexivity. Qed.

(** A recognised kind does not save a call whose location the backend
    rejects: the backend's error comes out. *)
Example recognised_kind_bad_location :
  (create_descriptor VNone (VInt Descriptor.APP) (OVal (VStr "bogus"))
     None None false None Fixture.world).1
  = Raise (TankDescriptorError "invalid descriptor").
Proof. vm_compute. reflexivity. Qed.

Example default_root_created :
  let r := create_descriptor VNone (VInt Descriptor.APP)
             (ODict (Fixture.tag_dict Fixture.publish)) None None false None
             Fixture.world in
  bool_decide ("/home/artist/.shotgun/bundle_cache" ∈ disk r.2) = true
  ∧ (Descriptor.get_path 4%positive r.2).1
    = Return "/home/artist/.shotgun/bundle_cache/tags/tk-multi-publish/v1.2.0".
Proof. vm_compute. by repeat split. Qed.

Example override_root_used :
  let r := create_descriptor VNone (VInt Descriptor.APP)
             (ODict (Fixture.tag_dict Fixture.publish)) (Some "/tmp/t")
             None false None Fixture.world in
  bool_decide (disk r.2 = ∅) = true
  ∧ length (calls r.2) = 1%nat
  ∧ (Descriptor.get_path 4%positive r.2).1
    = Return "/tmp/t/tags/tk-multi-publish/v1.2.0".
Proof. vm_compute. by repeat split. Qed.

Example own_icon_when_local :
  (Descriptor.icon_256 1%positive Fixture.world_local).1
  = Return "/cache/tags/tk-multi-publish/v1.2.0/icon_256.png".
Proof. vm_compute. reflexivity. Qed.

Example default_icon_when_missing :
  (Descriptor.icon_256 1%positive Fixture.world).1
  = Return
      "/opt/tk-core/python/tank/descriptor/resources/default_bundle_256px.png".
Proof. vm_compute. reflexivity. Qed.

(** A manifest lookup that yields something other than a mapping makes the
    accessor raise: the precondition of the totality result is needed. *)
Example description_needs_mapping (w : World) :
  (dict_get (OVal VNone) "description" w).1
  = Raise (AttributeError "object has no attribute 'get'").
Proof. reflexivity. Qed.

Example eq_across_references :
  (Descriptor.__eq__ 1%positive (VRef 3%positive) Fixture.world).1
  = Return true
  ∧ Fixture.publish ≠ Fixture.publish_alt.
Proof. split; [vm_compute; reflexivity | discriminate]. Qed.

Example eq_against_non_descriptor :
  (Descriptor.__eq__ 1%positive (VStr "tk-multi-publish") Fixture.world).1
  = Return false
  ∧ (Descriptor.__ne__ 1%positive VNone Fixture.world).1 = Return true.
Proof. vm_compute. by split. Qed.

(** * Further properties of the module *)

(** ** Comparison *)

Section comparison.
Context `{B : io_descriptor.Backend} `{P : Process}.

Lemma isinstance_returns (w : World) (other : PyVal) (cls : Class) :
  ∃ b : bool, isinstance other cls w = (Return b, w).
Proof.
  unfold isinstance. destruct other as [|z|s|l]; try by eexists.
  destruct (heap w !! l); by eexists.
Qed.

Lemma isinstance_true_inv (w : World) (other : PyVal) (cls : Class) :
  isinstance other cls w = (Return true, w) →
  ∃ l o, other = VRef l ∧ heap w !! l = Some o
         ∧ issubclass (__class__ o) cls = true.
Proof.
  unfold isinstance. destruct other as [|z|s|l]; try (intros; simplify_eq).
  destruct (heap w !! l) as [o|] eqn:Hl; intros; simplify_eq.
  by eexists _, _.
Qed.

(** X1: on a descriptor, the operators [==] and [!=] always return,
    never raise and change nothing, whatever they are compared with
    (another descriptor of any class, [None], a number, a string); [!=]
    is the negation of [==], and so is the [__ne__] method of the left
    operand. *)
Theorem eq_ne_complementary
    (w : World) (d : positive) (o : Instance) (other : PyVal) :
  heap w !! d = Some o →
  ∃ b : bool,
    Descriptor.eq_operator d other w = (Return b, w)
    ∧ Descriptor.ne_operator d other w = (Return (negb b), w)
    ∧ Descriptor.__ne__ d other w = (Return (negb b), w).
Proof.
  intros Hd.
  destruct (isinstance_returns w other (__class__ o)) as [[|] Hi].
  - destruct (isinstance_true_inv _ _ _ Hi) as (l & o2 & -> & Hl & Hsub).
    eexists. split; [by apply eq_operator_descriptors|].
    split; [by apply ne_operator_descriptors | by apply ne_descriptors].
  - exists false. split; [by apply eq_operator_not_instance with o|].
    split; [by apply ne_operator_not_instance with o
           | by apply ne_not_instance with o].
Qed.

Lemma issubclass_refl (c : Class) : issubclass c c = true.
Proof. unfold issubclass. by rewrite bool_decide_eq_true_2. Qed.

(** X2: among descriptors of one class, [==] is an equivalence: every
    descriptor equals itself, [d1 == d2] and [d2 == d1] give the same
    answer, and equality carries from [d1 == d2] and [d2 == d3] to
    [d1 == d3]. *)
Theorem eq_equivalence_within_class
    (w : World) (d1 d2 d3 : positive) (o1 o2 o3 : Instance) :
  heap w !! d1 = Some o1 →
  heap w !! d2 = Some o2 →
  heap w !! d3 = Some o3 →
  __class__ o1 = __class__ o2 →
  __class__ o2 = __class__ o3 →
  Descriptor.__eq__ d1 (VRef d1) w = (Return true, w)
  ∧ (Descriptor.__eq__ d1 (VRef d2) w).1
    = (Descriptor.__eq__ d2 (VRef d1) w).1
  ∧ (Descriptor.__eq__ d1 (VRef d2) w = (Return true, w) →
     Descriptor.__eq__ d2 (VRef d3) w = (Return true, w) →
     Descriptor.__eq__ d1 (VRef d3) w = (Return true, w)).
Proof.
  intros H1 H2 H3 H12 H23.
  rewrite (eq_instance w d1 d1 o1 o1), (eq_instance w d1 d2 o1 o2),
    (eq_instance w d2 d1 o2 o1), (eq_instance w d2 d3 o2 o3),
    (eq_instance w d1 d3 o1 o3);
    try done; try (rewrite ?H12, ?H23; apply issubclass_refl);
    try (rewrite <- ?H23, <- ?H12; apply issubclass_refl).
  split; [by rewrite bool_decide_eq_true_2|]. split.
  - simpl. f_equal. apply bool_decide_ext. naive_solver.
  - intros [= Ha] [= Hb]. apply bool_decide_eq_true_1 in Ha, Hb.
    rewrite bool_decide_eq_true_2; [done|congruence].
Qed.

(** X3: across the class hierarchy the operator and the bare method part
    ways.  For a plain [Descriptor] [d0] and an instance [d1] of a
    subclass over the same path, [d0 == d1] and [d1 == d0] are both
    [False] and both [!=] are [True], because the operator asks the
    subclass instance first; yet the method of [d0] called directly on
    [d1] returns [True], and so does its [__ne__]. *)
Theorem eq_base_class_one_sided
    (w : World) (d0 d1 : positive) (o0 o1 : Instance) :
  heap w !! d0 = Some o0 →
  heap w !! d1 = Some o1 →
  __class__ o0 = DescriptorClass →
  __class__ o1 ≠ DescriptorClass →
  io_descriptor.get_path (_io_descriptor o0)
  = io_descriptor.get_path (_io_descriptor o1) →
  Descriptor.eq_operator d0 (VRef d1) w = (Return false, w)
  ∧ Descriptor.eq_operator d1 (VRef d0) w = (Return false, w)
  ∧ Descriptor.ne_operator d0 (VRef d1) w = (Return true, w)
  ∧ Descriptor.ne_operator d1 (VRef d0) w = (Return true, w)
  ∧ Descriptor.__eq__ d0 (VRef d1) w = (Return true, w)
  ∧ Descriptor.__eq__ d1 (VRef d0) w = (Return false, w)
  ∧ Descriptor.__ne__ d0 (VRef d1) w = (Return true, w).
Proof.
  intros H0 H1 Hbase Hsub Hpath.
  rewrite (eq_operator_descriptors _ _ _ _ _ H0 H1),
    (eq_operator_descriptors _ _ _ _ _ H1 H0),
    (ne_operator_descriptors _ _ _ _ _ H0 H1),
    (ne_operator_descriptors _ _ _ _ _ H1 H0),
    (ne_descriptors _ _ _ _ _ H0 H1).
  rewrite (bool_decide_eq_false_2 (__class__ o0 = __class__ o1))
    by congruence.
  rewrite (bool_decide_eq_false_2 (__class__ o1 = __class__ o0))
    by congruence.
  simpl. do 4 (split; [done|]). split; [|split; [|done]].
  - rewrite (eq_instance w d0 d1 o0 o1); try done.
    + by rewrite bool_decide_eq_true_2.
    + unfold issubclass. rewrite Hbase.
      by rewrite (bool_decide_eq_true_2 (DescriptorClass = DescriptorClass)),
        orb_true_r.
  - apply eq_not_instance with o1; [done|].
    rewrite (isinstance_allocated _ _ _ _ H0). unfold issubclass.
    rewrite Hbase. by rewrite !bool_decide_eq_false_2.
Qed.

End comparison.

(** ** Resolving the latest version, continued *)

Section latest_more.
Context `{B : io_descriptor.Backend} `{P : Process}.

(** X4: [find_latest_version] touches no object that was there before
    the call, whether it returns or raises: the heap afterwards is the
    heap before plus one object at an address that was free. *)
Theorem find_latest_version_heap_frame
    (w : World) (d : positive) (o : Instance) (p : option string) :
  heap w !! d = Some o →
  let w' := (Descriptor.find_latest_version d p w).2 in
  ∃ latest : positive,
    heap w !! latest = None
    ∧ is_Some (heap w' !! latest)
    ∧ (∀ l, l ≠ latest → heap w' !! l = heap w !! l)
    ∧ dom (heap w') = {[latest]} ∪ dom (heap w).
Proof.
  intros Hd w'. exists (fresh (dom (heap w))).
  split; [apply fresh_not_allocated|].
  unfold w'. rewrite (find_latest_version_run _ _ _ _ Hd).
  destruct (io_descriptor.get_latest_version _ _ _) as [[io'|e] dk]; simpl.
  - split; [by rewrite lookup_insert_eq|]. split.
    + intros l Hl. by rewrite !lookup_insert_ne.
    + rewrite !dom_insert_L. set_solver.
  - split; [by rewrite lookup_insert_eq|]. split.
    + intros l Hl. by rewrite lookup_insert_ne.
    + by rewrite dom_insert_L.
Qed.

(** X5: one call to [find_latest_version] makes exactly one call out of
    the module: [get_latest_version] on the IO descriptor bound to [self],
    with the constraint pattern as the caller gave it.  The disk
    afterwards is the disk that query left. *)
Theorem find_latest_version_single_query
    (w : World) (d : positive) (o : Instance) (p : option string) :
  heap w !! d = Some o →
  let w' := (Descriptor.find_latest_version d p w).2 in
  calls w' = (calls w ++ [Call_get_latest_version (_io_descriptor o) p])%list
  ∧ disk w'
    = (io_descriptor.get_latest_version (_io_descriptor o) p (disk w)).2.
Proof.
  intros Hd w'. unfold w'. rewrite (find_latest_version_run _ _ _ _ Hd).
  by destruct (io_descriptor.get_latest_version _ _ _) as [[io'|e] dk].
Qed.

(** X6: when the query raises, [find_latest_version] raises the same
    exception; the copy it made before asking stays behind in the heap, an
    exact duplicate of [self] that nothing refers to. *)
Theorem find_latest_version_failure
    (w : World) (d : positive) (o : Instance) (p : option string)
    (e : Exc) (dk' : gset string) :
  heap w !! d = Some o →
  io_descriptor.get_latest_version (_io_descriptor o) p (disk w)
  = (Raise e, dk') →
  ∃ (w' : World) (orphan : positive),
    Descriptor.find_latest_version d p w = (Raise e, w')
    ∧ heap w !! orphan = None
    ∧ heap w' !! orphan = Some o
    ∧ heap w' !! d = Some o.
Proof.
  intros Hd Hq. rewrite (find_latest_version_run _ _ _ _ Hd), Hq. simpl.
  eexists _, (fresh (dom (heap w))). split; [reflexivity|]. simpl.
  split; [apply fresh_not_allocated|].
  split; [by rewrite lookup_insert_eq|].
  rewrite lookup_insert_ne; [done|]. by apply fresh_ne_allocated with o.
Qed.

(** X7: the descriptor that [find_latest_version] returns compares equal
    to the one it was called on exactly when the resolved IO descriptor
    has the same local path, from either side; so where the backend
    answers with the same IO descriptor the two are equal, though they
    are two objects. *)
Theorem find_latest_version_then_eq
    (w : World) (d : positive) (o : Instance) (p : option string)
    (io' : io_descriptor.IODescriptor) (dk' : gset string) :
  heap w !! d = Some o →
  io_descriptor.get_latest_version (_io_descriptor o) p (disk w)
  = (Return io', dk') →
  ∃ (d2 : positive) (w' : World),
    Descriptor.find_latest_version d p w = (Return d2, w')
    ∧ d2 ≠ d
    ∧ Descriptor.__eq__ d (VRef d2) w'
      = (Return (bool_decide (io_descriptor.get_path (_io_descriptor o)
                              = io_descriptor.get_path io')), w')
    ∧ Descriptor.__eq__ d2 (VRef d) w'
      = (Return (bool_decide (io_descriptor.get_path io'
                              = io_descriptor.get_path (_io_descriptor o))),
         w')
    ∧ (io' = _io_descriptor o →
       Descriptor.__eq__ d (VRef d2) w' = (Return true, w')).
Proof.
  intros Hd Hq. rewrite (find_latest_version_run _ _ _ _ Hd), Hq. simpl.
  set (latest := fresh (dom (heap w))).
  set (o2 := {| __class__ := __class__ o; _io_descriptor := io';
                __dict__ := __dict__ o |}).
  set (w' := {| heap := <[latest:=o2]> (<[latest:=o]> (heap w));
                disk := dk'; calls := _ |}).
  assert (Hne : latest ≠ d) by (by apply fresh_ne_allocated with o).
  assert (Hd' : heap w' !! d = Some o).
  { simpl. by rewrite !lookup_insert_ne. }
  assert (H2 : heap w' !! latest = Some o2).
  { simpl. by rewrite lookup_insert_eq. }
  exists latest, w'. split; [done|]. split; [done|].
  pose proof (eq_instance w' d latest o o2 Hd' H2 (issubclass_refl _)) as H12.
  pose proof (eq_instance w' latest d o2 o H2 Hd' (issubclass_refl _)) as H21.
  split; [exact H12|]. split; [exact H21|].
  intros ->. rewrite H12. simpl. by rewrite bool_decide_eq_true_2.
Qed.

End latest_more.

(** ** The factory, continued *)

Section factory_more.
Context `{B : io_descriptor.Backend} `{P : Process}.

(** The three ways a call to the factory can end, each with the world it
    leaves. *)
Lemma create_descriptor_construction_raises
    (sg_connection descriptor_type : PyVal) (dict_or_uri : PyObj)
    (bundle_cache_root_override : option string)
    (fallback_roots : option (list string))
    (resolve_latest : bool) (constraint_pattern : option string)
    (w : World) (e : Exc) (dk' : gset string) :
  let root := default default_bundle_cache_root bundle_cache_root_override in
  let args := factory_args sg_connection descriptor_type dict_or_uri root
                fallback_roots resolve_latest constraint_pattern in
  let w0 := world_at_construction bundle_cache_root_override w in
  io_descriptor.create_io_descriptor args (disk w0) = (Raise e, dk') →
  create_descriptor sg_connection descriptor_type dict_or_uri
    bundle_cache_root_override fallback_roots resolve_latest
    constraint_pattern w
  = (Raise e, set_disk dk' (log (Call_create_io_descriptor args) w0)).
Proof.
  intros root args w0 Hio. rewrite create_descriptor_run.
  fold root. fold args. fold w0. by rewrite Hio.
Qed.

Lemma create_descriptor_unrecognised
    (sg_connection descriptor_type : PyVal) (dict_or_uri : PyObj)
    (bundle_cache_root_override : option string)
    (fallback_roots : option (list string))
    (resolve_latest : bool) (constraint_pattern : option string)
    (w : World) (io : io_descriptor.IODescriptor) (dk' : gset string) :
  let root := default default_bundle_cache_root bundle_cache_root_override in
  let args := factory_args sg_connection descriptor_type dict_or_uri root
                fallback_roots resolve_latest constraint_pattern in
  let w0 := world_at_construction bundle_cache_root_override w in
  io_descriptor.create_io_descriptor args (disk w0) = (Return io, dk') →
  ¬ recognised descriptor_type →
  create_descriptor sg_connection descriptor_type dict_or_uri
    bundle_cache_root_override fallback_roots resolve_latest
    constraint_pattern w
  = (match (py_str descriptor_type w).1 with
     | Return text =>
         Raise (TankDescriptorError ("Unsupported descriptor type " +:+ text))
     | Raise e => Raise e
     end,
     set_disk dk' (log (Call_create_io_descriptor args) w0)).
Proof.
  intros root args w0 Hio Hn. rewrite create_descriptor_run.
  fold root. fold args. fold w0. rewrite Hio. simpl.
  destruct (bind_by_kind_run descriptor_type io
    (set_disk dk' (log (Call_create_io_descriptor args) w0)))
    as (_ & Hr & _).
  rewrite (Hr Hn).
  rewrite (py_str_heap descriptor_type _ w); [done|].
  unfold w0, world_at_construction.
  by destruct bundle_cache_root_override.
Qed.

Lemma create_descriptor_returns
    (sg_connection : PyVal) (k : Z) (cls : Class) (dict_or_uri : PyObj)
    (bundle_cache_root_override : option string)
    (fallback_roots : option (list string))
    (resolve_latest : bool) (constraint_pattern : option string)
    (w : World) (io : io_descriptor.IODescriptor) (dk' : gset string) :
  let root := default default_bundle_cache_root bundle_cache_root_override in
  let args := factory_args sg_connection (VInt k) dict_or_uri root
                fallback_roots resolve_latest constraint_pattern in
  let w0 := world_at_construction bundle_cache_root_override w in
  io_descriptor.create_io_descriptor args (disk w0) = (Return io, dk') →
  (k, cls) ∈ kind_variants →
  create_descriptor sg_connection (VInt k) dict_or_uri
    bundle_cache_root_override fallback_roots resolve_latest
    constraint_pattern w
  = (Return (fresh (dom (heap w))),
     {| heap := <[fresh (dom (heap w)) :=
                    {| __class__ := cls; _io_descriptor := io;
                       __dict__ := ∅ |}]> (heap w);
        disk := dk';
        calls := (calls w0 ++ [Call_create_io_descriptor args])%list |}).
Proof.
  intros root args w0 Hio Hin. rewrite create_descriptor_run.
  fold root. fold args. fold w0. rewrite Hio. simpl.
  destruct (bind_by_kind_run (VInt k) io
    (set_disk dk' (log (Call_create_io_descriptor args) w0)))
    as (Hrec & _). rewrite (Hrec cls Hin), new_run. simpl.
  assert (Hheap : heap w0 = heap w).
  { unfold w0, world_at_construction.
    by destruct bundle_cache_root_override. }
  by rewrite Hheap.
Qed.

Lemma recognised_or_not (v : PyVal) : recognised v ∨ ¬ recognised v.
Proof.
  destruct v as [|z|s|l];
    try (right; intros Hr; by destruct (recognised_is_int _ Hr)).
  rewrite recognised_int.
  destruct (decide (z = 0 ∨ z = 2 ∨ z = 1 ∨ z = 3 ∨ z = 4)%Z); auto.
Qed.

(** X8: an exception raised while the IO descriptor is constructed comes
    out of the factory as it is, and no descriptor object is made, for
    every kind argument: a kind that is not recognised goes unnoticed when
    the construction fails first. *)
Theorem create_descriptor_propagates
    (sg_connection descriptor_type : PyVal) (dict_or_uri : PyObj)
    (bundle_cache_root_override : option string)
    (fallback_roots : option (list string))
    (resolve_latest : bool) (constraint_pattern : option string)
    (w : World) (e : Exc) (dk' : gset string) :
  let root := default default_bundle_cache_root bundle_cache_root_override in
  let w0 := world_at_construction bundle_cache_root_override w in
  io_descriptor.create_io_descriptor
    (factory_args sg_connection descriptor_type dict_or_uri root
       fallback_roots resolve_latest constraint_pattern) (disk w0)
  = (Raise e, dk') →
  let r := create_descriptor sg_connection descriptor_type dict_or_uri
             bundle_cache_root_override fallback_roots resolve_latest
             constraint_pattern w in
  r.1 = Raise e ∧ heap r.2 = heap w ∧ disk r.2 = dk'.
Proof.
  intros root w0 Hio r. unfold r.
  rewrite (create_descriptor_construction_raises _ _ _ _ _ _ _ _ _ _ Hio).
  simpl. repeat split. unfold w0, world_at_construction.
  by destruct bundle_cache_root_override.
Qed.

(** X9: a kind that is not recognised is found out only at the end.  By
    the time the factory raises, the IO descriptor has been constructed
    and, without an override, the default cache folder has been made to
    exist: the disk is the one the construction left and the calls are on
    record, though no descriptor object was made. *)
Theorem create_descriptor_rejects_late
    (sg_connection descriptor_type : PyVal) (dict_or_uri : PyObj)
    (bundle_cache_root_override : option string)
    (fallback_roots : option (list string))
    (resolve_latest : bool) (constraint_pattern : option string)
    (w : World) (io : io_descriptor.IODescriptor) (dk' : gset string) :
  let root := default default_bundle_cache_root bundle_cache_root_override in
  let args := factory_args sg_connection descriptor_type dict_or_uri root
                fallback_roots resolve_latest constraint_pattern in
  let w0 := world_at_construction bundle_cache_root_override w in
  io_descriptor.create_io_descriptor args (disk w0) = (Return io, dk') →
  ¬ recognised descriptor_type →
  let r := create_descriptor sg_connection descriptor_type dict_or_uri
             bundle_cache_root_override fallback_roots resolve_latest
             constraint_pattern w in
  (∃ e, r.1 = Raise e)
  ∧ (∀ text, py_str descriptor_type w = (Return text, w) →
             r.1 = Raise (TankDescriptorError
                            ("Unsupported descriptor type " +:+ text)))
  ∧ heap r.2 = heap w
  ∧ disk r.2 = dk'
  ∧ Call_create_io_descriptor args ∈ calls r.2
  ∧ (bundle_cache_root_override = None →
     Call_ensure_folder_exists default_bundle_cache_root ∈ calls r.2
     ∧ default_bundle_cache_root ∈ disk w0).
Proof.
  intros root args w0 Hio Hn r. unfold r.
  rewrite (create_descriptor_unrecognised _ _ _ _ _ _ _ _ _ _ Hio Hn).
  simpl. fold root. fold args. fold w0.
  split; [destruct (py_str descriptor_type w).1; by eexists|].
  split; [by intros text ->|]. split.
  { unfold w0, world_at_construction.
    by destruct bundle_cache_root_override. }
  split; [done|]. split; [set_solver|].
  intros ->. unfold w0. simpl. split; set_solver.
Qed.

(** X10: whatever its arguments and however it ends, the factory leaves
    every object that was in the heap as it was, and adds at most one. *)
Theorem create_descriptor_heap_frame
    (sg_connection descriptor_type : PyVal) (dict_or_uri : PyObj)
    (bundle_cache_root_override : option string)
    (fallback_roots : option (list string))
    (resolve_latest : bool) (constraint_pattern : option string)
    (w : World) :
  let w' := (create_descriptor sg_connection descriptor_type dict_or_uri
               bundle_cache_root_override fallback_roots resolve_latest
               constraint_pattern w).2 in
  (∀ l o, heap w !! l = Some o → heap w' !! l = Some o)
  ∧ (heap w' = heap w
     ∨ ∃ l o, heap w !! l = None ∧ heap w' = <[l := o]> (heap w)).
Proof.
  intros w'. unfold w'. rewrite create_descriptor_run.
  set (w0 := world_at_construction bundle_cache_root_override w).
  assert (Hheap : heap w0 = heap w).
  { unfold w0, world_at_construction.
    by destruct bundle_cache_root_override. }
  set (args := factory_args _ _ _ _ _ _ _).
  destruct (io_descriptor.create_io_descriptor args (disk w0))
    as [[io|e] dk']; simpl; [|rewrite Hheap; by auto].
  set (w1 := set_disk dk' _).
  assert (Hheap1 : heap w1 = heap w) by done.
  clearbody w1.
  destruct (recognised_or_not descriptor_type) as [Hrec|Hn].
  - destruct Hrec as (k & cls & Hin & ->).
    destruct (bind_by_kind_run (VInt k) io w1) as (Hnew & _).
    rewrite (Hnew cls Hin), new_run. simpl. rewrite Hheap1. split.
    + intros l o Hl. rewrite lookup_insert_ne; [done|].
      by apply fresh_ne_allocated with o.
    + right. eexists _, _. split; [apply fresh_not_allocated|done].
  - destruct (bind_by_kind_run descriptor_type io w1) as (_ & Hr & _).
    rewrite (Hr Hn). simpl. rewrite Hheap1. by auto.
Qed.

End factory_more.

(** ** The factory and the methods together *)

Section factory_composed.
Context `{B : io_descriptor.Backend} `{P : Process}.

(** The accessors that only pass on what the IO descriptor holds. *)
Lemma delegating_accessors_allocated
    (w : World) (d : positive) (o : Instance) :
  heap w !! d = Some o →
  let io := _io_descriptor o in
  Descriptor.get_path d w = (Return (io_descriptor.get_path io), w)
  ∧ Descriptor.version d w = (Return (io_descriptor.get_version io), w)
  ∧ Descriptor.system_name d w
    = (Return (io_descriptor.get_system_name io), w)
  ∧ Descriptor.get_dict d w = (Return (io_descriptor.get_dict io), w)
  ∧ Descriptor.get_uri d w = (Return (io_descriptor.get_uri io), w)
  ∧ Descriptor.is_dev d w = (Return (io_descriptor.is_dev io), w)
  ∧ Descriptor.is_immutable d w
    = (Return (io_descriptor.is_immutable io), w)
  ∧ Descriptor.__str__ d w
    = (Return (io_descriptor.get_system_name io +:+ " "
               +:+ io_descriptor.get_version io), w).
Proof.
  intros Hd io.
  pose proof (getattr_io_descriptor_allocated _ _ _ Hd) as Hio.
  repeat split;
    unfold Descriptor.__str__, Descriptor.get_path, Descriptor.version,
      Descriptor.system_name, Descriptor.get_dict, Descriptor.get_uri,
      Descriptor.is_dev, Descriptor.is_immutable;
    unfold_monad; rewrite Hio; simpl; by rewrite ?Hio.
Qed.

(** X11: what the factory returns for a recognised kind answers for the IO
    descriptor that was constructed: [get_path], [version], [system_name],
    [get_dict], [get_uri], [is_dev] and [is_immutable] return that IO
    descriptor's values, and [str()] of it is the system name, a space,
    and the version. *)
Theorem create_descriptor_then_accessors
    (sg_connection : PyVal) (k : Z) (cls : Class) (dict_or_uri : PyObj)
    (bundle_cache_root_override : option string)
    (fallback_roots : option (list string))
    (resolve_latest : bool) (constraint_pattern : option string)
    (w : World) (io : io_descriptor.IODescriptor) (dk' : gset string) :
  let root := default default_bundle_cache_root bundle_cache_root_override in
  let w0 := world_at_construction bundle_cache_root_override w in
  io_descriptor.create_io_descriptor
    (factory_args sg_connection (VInt k) dict_or_uri root
       fallback_roots resolve_latest constraint_pattern) (disk w0)
  = (Return io, dk') →
  (k, cls) ∈ kind_variants →
  ∃ (d : positive) (w' : World),
    create_descriptor sg_connection (VInt k) dict_or_uri
      bundle_cache_root_override fallback_roots resolve_latest
      constraint_pattern w = (Return d, w')
    ∧ Descriptor.get_path d w' = (Return (io_descriptor.get_path io), w')
    ∧ Descriptor.version d w' = (Return (io_descriptor.get_version io), w')
    ∧ Descriptor.system_name d w'
      = (Return (io_descriptor.get_system_name io), w')
    ∧ Descriptor.get_dict d w' = (Return (io_descriptor.get_dict io), w')
    ∧ Descriptor.get_uri d w' = (Return (io_descriptor.get_uri io), w')
    ∧ Descriptor.is_dev d w' = (Return (io_descriptor.is_dev io), w')
    ∧ Descriptor.is_immutable d w'
      = (Return (io_descriptor.is_immutable io), w')
    ∧ Descriptor.__str__ d w'
      = (Return (io_descriptor.get_system_name io +:+ " "
                 +:+ io_descriptor.get_version io), w').
Proof.
  intros root w0 Hio Hin.
  rewrite (create_descriptor_returns _ _ _ _ _ _ _ _ _ _ _ Hio Hin).
  eexists _, _. split; [reflexivity|].
  apply (delegating_accessors_allocated _ _
           {| __class__ := cls; _io_descriptor := io; __dict__ := ∅ |}).
  simpl. by rewrite lookup_insert_eq.
Qed.

Lemma kind_variants_issubclass (k1 k2 : Z) (cls1 cls2 : Class) :
  (k1, cls1) ∈ kind_variants →
  (k2, cls2) ∈ kind_variants →
  issubclass cls2 cls1 = bool_decide (k1 = k2).
Proof.
  intros H1%kind_variants_cases H2%kind_variants_cases.
  destruct H1 as [[-> ->]|[[-> ->]|[[-> ->]|[[-> ->]|[-> ->]]]]];
    destruct H2 as [[-> ->]|[[-> ->]|[[-> ->]|[[-> ->]|[-> ->]]]]];
    reflexivity.
Qed.

(** X12: two descriptors made by the factory one after the other are two
    objects, and they compare equal exactly when they were asked for with
    the same kind and their IO descriptors resolve to the same local path;
    the location references and the other arguments do not enter into
    it. *)
Theorem create_descriptor_twice_eq
    (sg1 sg2 : PyVal) (k1 k2 : Z) (cls1 cls2 : Class) (ref1 ref2 : PyObj)
    (ov1 ov2 : option string) (fb1 fb2 : option (list string))
    (rl1 rl2 : bool) (cp1 cp2 : option string)
    (w : World) (io1 io2 : io_descriptor.IODescriptor)
    (dk1 dk2 : gset string) :
  (k1, cls1) ∈ kind_variants →
  (k2, cls2) ∈ kind_variants →
  let r1 := create_descriptor sg1 (VInt k1) ref1 ov1 fb1 rl1 cp1 w in
  io_descriptor.create_io_descriptor
    (factory_args sg1 (VInt k1) ref1 (default default_bundle_cache_root ov1)
       fb1 rl1 cp1) (disk (world_at_construction ov1 w))
  = (Return io1, dk1) →
  io_descriptor.create_io_descriptor
    (factory_args sg2 (VInt k2) ref2 (default default_bundle_cache_root ov2)
       fb2 rl2 cp2) (disk (world_at_construction ov2 r1.2))
  = (Return io2, dk2) →
  let r2 := create_descriptor sg2 (VInt k2) ref2 ov2 fb2 rl2 cp2 r1.2 in
  ∃ d1 d2 : positive,
    r1.1 = Return d1
    ∧ r2.1 = Return d2
    ∧ d1 ≠ d2
    ∧ Descriptor.__eq__ d1 (VRef d2) r2.2
      = (Return (bool_decide (k1 = k2)
                 && bool_decide (io_descriptor.get_path io1
                                 = io_descriptor.get_path io2)), r2.2).
Proof.
  intros Hin1 Hin2 r1 Hio1 Hio2 r2.
  assert (Hr1 := create_descriptor_returns _ _ _ _ _ _ _ _ _ _ _ Hio1 Hin1).
  fold r1 in Hr1.
  destruct r1 as [out1 w1]. simplify_eq. simpl in Hio2.
  match type of Hio2 with
  | context [world_at_construction ov2 ?x] => set (w1 := x) in *
  end.
  assert (Hr2 := create_descriptor_returns _ _ _ _ _ _ _ _ _ _ _ Hio2 Hin2).
  subst r2. simpl. rewrite Hr2. simpl.
  set (d1 := fresh (dom (heap w))).
  set (o1 := {| __class__ := cls1; _io_descriptor := io1; __dict__ := ∅ |}).
  set (o2 := {| __class__ := cls2; _io_descriptor := io2; __dict__ := ∅ |}).
  assert (H1 : heap w1 !! d1 = Some o1).
  { unfold w1. simpl. by rewrite lookup_insert_eq. }
  set (d2 := fresh (dom (heap w1))).
  assert (Hne : d2 ≠ d1) by (by apply fresh_ne_allocated with o1).
  exists d1, d2. split; [done|]. split; [done|]. split; [done|].
  set (w2 := {| heap := _; disk := dk2; calls := _ |}).
  assert (H1' : heap w2 !! d1 = Some o1).
  { unfold w2. simpl. by rewrite lookup_insert_ne. }
  assert (H2' : heap w2 !! d2 = Some o2).
  { unfold w2. simpl. by rewrite lookup_insert_eq. }
  clearbody w2.
  pose proof (kind_variants_issubclass _ _ _ _ Hin1 Hin2) as Hsub.
  destruct (decide (k1 = k2)) as [Hk|Hk].
  - rewrite (bool_decide_eq_true_2 _ Hk) in *.
    by rewrite (eq_instance w2 d1 d2 o1 o2 H1' H2' Hsub).
  - rewrite (bool_decide_eq_false_2 _ Hk) in *. simpl.
    apply eq_not_instance with o1; [done|].
    rewrite (isinstance_allocated _ _ _ _ H2'). simpl. by rewrite Hsub.
Qed.

End factory_composed.

(** ** Accessors, continued *)

Module posixpath_more.
Import posixpath.

Lemma startswith_sep_append (a b : string) :
  startswith_sep a = true → startswith_sep (a +:+ b) = true.
Proof. by destruct a. Qed.

(** Joining onto an absolute path gives an absolute path. *)
Lemma join_isabs (a b : string) : isabs a = true → isabs (join a b) = true.
Proof.
  unfold isabs, join. intros Ha.
  destruct (startswith_sep b) eqn:Hb; [done|].
  destruct (_ || _); by apply startswith_sep_append.
Qed.

(** Normalising an absolute path gives an absolute path. *)
Lemma normpath_isabs (p : string) : isabs p = true → isabs (normpath p) = true.
Proof.
  unfold isabs. destruct p as [|c rest]; [done|].
  simpl. unfold is_sep. intros Hc%bool_decide_eq_true_1. subst c.
  unfold normpath. rewrite bool_decide_eq_false_2 by done. cbv zeta.
  lazymatch goal with
  | |- context [normpath_step ?n] => set (slashes := n)
  end.
  assert (Hn : slashes = 1%nat ∨ slashes = 2%nat).
  { unfold slashes. repeat case_match; auto. }
  clearbody slashes.
  destruct Hn as [-> | ->]; reflexivity.
Qed.

Lemma abspath_isabs (cwd p : string) :
  isabs cwd = true → isabs (abspath cwd p) = true.
Proof.
  intros Hcwd. unfold abspath. apply normpath_isabs.
  destruct (isabs p) eqn:Hp; [done|]. by apply join_isabs.
Qed.

End posixpath_more.

Section accessors_more.
Context `{B : io_descriptor.Backend} `{P : Process}.

(** The manifest-backed accessors on a manifest that is a mapping. *)
Lemma manifest_accessors_mapping
    (w : World) (d : positive) (o : Instance) (m : gmap string PyVal) :
  heap w !! d = Some o →
  io_descriptor.get_manifest (_io_descriptor o) (disk w) = ODict m →
  Descriptor.display_name d w
  = (Return (manifest_field m "display_name"
               (VStr (io_descriptor.get_system_name (_io_descriptor o)))), w)
  ∧ Descriptor.description d w
    = (Return (manifest_field m "description"
                 (VStr "No description available.")), w)
  ∧ Descriptor.support_url d w
    = (Return (manifest_field m "support_url"
                 (VStr "https://support.shotgunsoftware.com")), w)
  ∧ Descriptor.documentation_url d w
    = (Return (default VNone (m !! "documentation_url")), w).
Proof.
  intros Hd Hm.
  pose proof (call_get_manifest_allocated _ _ _ Hd) as Hcall.
  pose proof (getattr_io_descriptor_allocated _ _ _ Hd) as Hio.
  rewrite Hm in Hcall.
  repeat split;
    unfold Descriptor.display_name, Descriptor.description,
      Descriptor.support_url, Descriptor.documentation_url,
      Descriptor.system_name;
    unfold_monad; rewrite Hcall, dict_get_mapping; unfold manifest_field;
    try done;
    destruct (m !! _) as [v|]; simpl; rewrite ?Hio;
    try done; case_bool_decide; by rewrite ?Hio.
Qed.

(** X13: the defaults of [display_name], [description] and [support_url]
    stand in for an entry that is [None], and only for that: an entry that
    is empty or zero is returned as it is.  [documentation_url] has no
    default and returns its entry whatever it is. *)
Theorem manifest_entry_returned_unless_none
    (w : World) (d : positive) (o : Instance) (m : gmap string PyVal) :
  heap w !! d = Some o →
  io_descriptor.get_manifest (_io_descriptor o) (disk w) = ODict m →
  (∀ v, m !! "display_name" = Some v →
        Descriptor.display_name d w
        = (Return (if bool_decide (v = VNone)
                   then VStr (io_descriptor.get_system_name (_io_descriptor o))
                   else v), w))
  ∧ (∀ v, m !! "description" = Some v →
          Descriptor.description d w
          = (Return (if bool_decide (v = VNone)
                     then VStr "No description available." else v), w))
  ∧ (∀ v, m !! "support_url" = Some v →
          Descriptor.support_url d w
          = (Return (if bool_decide (v = VNone)
                     then VStr "https://support.shotgunsoftware.com"
                     else v), w))
  ∧ (∀ v, m !! "documentation_url" = Some v →
          Descriptor.documentation_url d w = (Return v, w))
  ∧ (m !! "display_name" = Some (VStr "") →
     Descriptor.display_name d w = (Return (VStr ""), w)).
Proof.
  intros Hd Hm.
  destruct (manifest_accessors_mapping _ _ _ _ Hd Hm)
    as (Hname & Hdesc & Hsup & Hdoc).
  rewrite Hname, Hdesc, Hsup, Hdoc. unfold manifest_field.
  repeat split; intros; by repeat match goal with
                              | H : _ !! _ = Some _ |- _ => rewrite H; clear H
                              end.
Qed.

(** X14: the manifest-backed accessors do not guard the lookup.  When
    [get_manifest] hands back something that is not a mapping, each of
    [display_name], [description], [support_url] and [documentation_url]
    raises [AttributeError]; [version], [changelog] and
    [deprecation_status], which do not read the manifest, still return. *)
Theorem manifest_not_a_mapping
    (w : World) (d : positive) (o : Instance) (v : PyVal) :
  heap w !! d = Some o →
  io_descriptor.get_manifest (_io_descriptor o) (disk w) = OVal v →
  let err := Raise (AttributeError "object has no attribute 'get'") in
  Descriptor.display_name d w = (err, w)
  ∧ Descriptor.description d w = (err, w)
  ∧ Descriptor.support_url d w = (err, w)
  ∧ Descriptor.documentation_url d w = (err, w)
  ∧ Descriptor.version d w
    = (Return (io_descriptor.get_version (_io_descriptor o)), w)
  ∧ Descriptor.changelog d w
    = (Return (io_descriptor.get_changelog (_io_descriptor o) (disk w)), w)
  ∧ Descriptor.deprecation_status d w
    = (Return (io_descriptor.get_deprecation_status (_io_descriptor o)
                 (disk w)), w).
Proof.
  intros Hd Hm err.
  pose proof (call_get_manifest_allocated _ _ _ Hd) as Hcall.
  pose proof (getattr_io_descriptor_allocated _ _ _ Hd) as Hio.
  rewrite Hm in Hcall.
  repeat split;
    unfold Descriptor.display_name, Descriptor.description,
      Descriptor.support_url, Descriptor.documentation_url,
      Descriptor.version, Descriptor.changelog,
      Descriptor.deprecation_status;
    unfold_monad; by rewrite ?Hcall, ?Hio.
Qed.

(** X15: [icon_256] always returns, with or without a manifest: the
    bundle's own icon if that file exists, the built-in one if not.  The
    path it returns is absolute whenever the bundle's local path and the
    working directory are. *)
Theorem icon_256_total_and_absolute
    (w : World) (d : positive) (o : Instance) :
  heap w !! d = Some o →
  let app_icon :=
    posixpath.join (io_descriptor.get_path (_io_descriptor o))
      "icon_256.png" in
  ∃ icon : string,
    Descriptor.icon_256 d w = (Return icon, w)
    ∧ (icon = app_icon ∧ app_icon ∈ disk w
       ∨ icon = default_icon ∧ app_icon ∉ disk w)
    ∧ (posixpath.isabs (io_descriptor.get_path (_io_descriptor o)) = true →
       posixpath.isabs getcwd = true →
       posixpath.isabs icon = true).
Proof.
  intros Hd app_icon.
  unfold Descriptor.icon_256, Descriptor.path_exists. unfold_monad.
  rewrite (getattr_io_descriptor_allocated _ _ _ Hd). simpl.
  fold app_icon. case_bool_decide as Hicon.
  - exists app_icon. split; [done|]. split; [by left|].
    intros Hpath _. by apply posixpath_more.join_isabs.
  - eexists. split; [reflexivity|]. split; [by right|].
    intros _ Hcwd. by apply posixpath_more.abspath_isabs.
Qed.

End accessors_more.

(** ** Exceptions *)

Module errors_facts.
Import errors.

(** X16: with the Python 3 constructor, the [message] of an exception of
    this module is never empty.  A class other than
    [TankErrorProjectIsSetup] takes at most one argument: called with
    none, with [None], or with anything else that counts as false (the
    empty string, zero) it gives the name of the class as message; any
    other argument is kept as the message.  [TankErrorProjectIsSetup]
    takes no argument at all and carries its fixed text. *)
Theorem message_never_empty (cls : ErrorClass) (args : list PyVal) :
  (∀ e, construct true cls args = Built e →
        error_class e = cls ∧ truthy (message e) = true)
  ∧ (cls = TankErrorProjectIsSetup →
     construct true cls []
     = Built {| error_class := cls;
                message :=
                  VStr ("You are trying to set up a project which has "
                        +:+ "already been set up. If you want to do this, "
                        +:+ "make sure to set the force parameter.") |}
     ∧ (args ≠ [] → construct true cls args = TypeError))
  ∧ (cls ≠ TankErrorProjectIsSetup →
     construct true cls []
     = Built {| error_class := cls; message := VStr (__name__ cls) |}
     ∧ (∀ m, construct true cls [m]
             = Built {| error_class := cls;
                        message := if truthy m then m
                                   else VStr (__name__ cls) |})
     ∧ (∀ m1 m2 rest, construct true cls (m1 :: m2 :: rest) = TypeError))
  ∧ __name__ <$> all_classes
    = [ "TankError"; "TankUnreadableFileError"; "TankFileDoesNotExistError";
        "TankNoDefaultValueError"; "TankHookMethodDoesNotExistError";
        "TankErrorProjectIsSetup" ].
Proof.
  assert (Hname : ∀ c m, truthy (TankError__init__ c m) = true).
  { intros c m. unfold TankError__init__.
    destruct (truthy m) eqn:Hm; [done|]. by destruct c. }
  split; [|split; [|split; [|reflexivity]]].
  - intros e Hc. unfold construct in Hc.
    destruct cls; destruct args as [|m [|m' args]]; simplify_eq; simpl;
      by rewrite ?Hname.
  - intros ->. split; [reflexivity|]. by destruct args.
  - intros Hcls. destruct cls; by try (exfalso; by apply Hcls).
Qed.

(** X17: the classes of the module form a tree under [TankError]:
    [issubclass] is reflexive, transitive and antisymmetric, every class
    is a subclass of [TankError], and [TankFileDoesNotExistError] is a
    subclass of [TankUnreadableFileError]; so a handler for [TankError]
    catches them all, and one for [TankUnreadableFileError] catches a
    missing file too, while no other two classes catch each other. *)
Theorem issubclass_tree (c k j : ErrorClass) :
  issubclass c c = true
  ∧ issubclass c TankError = true
  ∧ (issubclass c k = true → issubclass k j = true → issubclass c j = true)
  ∧ (issubclass c k = true → issubclass k c = true → c = k)
  ∧ (issubclass c k = true →
     c = k ∨ k = TankError
     ∨ (c = TankFileDoesNotExistError ∧ k = TankUnreadableFileError)).
Proof.
  repeat split; destruct c; try destruct k; try destruct j;
    vm_compute; intros; try done; auto.
Qed.

End errors_facts.

(** ** The further properties at work on the example backend *)

Lemma eq_ne_complementary_witness :
  ∃ b : bool,
    Descriptor.eq_operator 2%positive (VRef 1%positive) Fixture.world_base
    = (Return b, Fixture.world_base)
    ∧ Descriptor.ne_operator 2%positive (VRef 1%positive) Fixture.world_base
      = (Return (negb b), Fixture.world_base)
    ∧ Descriptor.__ne__ 2%positive (VRef 1%positive) Fixture.world_base
      = (Return (negb b), Fixture.world_base).
Proof.
  apply (eq_ne_complementary Fixture.world_base 2 Fixture.base_obj).
  reflexivity.
Defined.

Lemma eq_equivalence_within_class_witness :
  (Descriptor.__eq__ 1%positive (VRef 3%positive) Fixture.world).1
  = (Descriptor.__eq__ 3%positive (VRef 1%positive) Fixture.world).1.
Proof.
  destruct (eq_equivalence_within_class Fixture.world 1 3 1
              Fixture.app_obj Fixture.app_alt_obj Fixture.app_obj
              eq_refl eq_refl eq_refl eq_refl eq_refl) as (_ & Hsym & _).
  exact Hsym.
Defined.

Lemma eq_base_class_one_sided_witness :
  Descriptor.eq_operator 2%positive (VRef 1%positive) Fixture.world_base
  = (Return false, Fixture.world_base)
  ∧ Descriptor.eq_operator 1%positive (VRef 2%positive) Fixture.world_base
    = (Return false, Fixture.world_base)
  ∧ Descriptor.ne_operator 2%positive (VRef 1%positive) Fixture.world_base
    = (Return true, Fixture.world_base)
  ∧ Descriptor.ne_operator 1%positive (VRef 2%positive) Fixture.world_base
    = (Return true, Fixture.world_base)
  ∧ Descriptor.__eq__ 2%positive (VRef 1%positive) Fixture.world_base
    = (Return true, Fixture.world_base)
  ∧ Descriptor.__eq__ 1%positive (VRef 2%positive) Fixture.world_base
    = (Return false, Fixture.world_base)
  ∧ Descriptor.__ne__ 2%positive (VRef 1%positive) Fixture.world_base
    = (Return true, Fixture.world_base).
Proof.
  apply (eq_base_class_one_sided Fixture.world_base 2 1
           Fixture.base_obj Fixture.app_obj);
    try reflexivity; discriminate.
Defined.

Lemma find_latest_version_heap_frame_witness :
  ∃ latest : positive,
    heap Fixture.world !! latest = None
    ∧ is_Some (heap (Descriptor.find_latest_version 1%positive None
                       Fixture.world).2 !! latest)
    ∧ (∀ l, l ≠ latest →
            heap (Descriptor.find_latest_version 1%positive None
                    Fixture.world).2 !! l
            = heap Fixture.world !! l)
    ∧ dom (heap (Descriptor.find_latest_version 1%positive None
                   Fixture.world).2)
      = {[latest]} ∪ dom (heap Fixture.world).
Proof.
  apply (find_latest_version_heap_frame Fixture.world 1 Fixture.app_obj None).
  reflexivity.
Defined.

Lemma find_latest_version_single_query_witness :
  calls (Descriptor.find_latest_version 1%positive (Some "v1.9.9")
           Fixture.world).2
  = [Call_get_latest_version Fixture.publish (Some "v1.9.9")].
Proof.
  destruct (find_latest_version_single_query Fixture.world 1 Fixture.app_obj
              (Some "v1.9.9") eq_refl) as [Hcalls _].
  exact Hcalls.
Defined.

Lemma find_latest_version_failure_witness :
  ∃ (w' : World) (orphan : positive),
    Descriptor.find_latest_version 1%positive (Some "v9.x.x") Fixture.world
    = (Raise (TankDescriptorError "no matching version"), w')
    ∧ heap Fixture.world !! orphan = None
    ∧ heap w' !! orphan = Some Fixture.app_obj
    ∧ heap w' !! 1%positive = Some Fixture.app_obj.
Proof.
  apply (find_latest_version_failure Fixture.world 1 Fixture.app_obj
           (Some "v9.x.x") (TankDescriptorError "no matching version") ∅);
    [reflexivity | vm_compute; reflexivity].
Defined.

Lemma find_latest_version_then_eq_witness :
  ∃ (d2 : positive) (w' : World),
    Descriptor.find_latest_version 1%positive (Some "v1.2.0") Fixture.world
    = (Return d2, w')
    ∧ d2 ≠ 1%positive
    ∧ Descriptor.__eq__ 1%positive (VRef d2) w' = (Return true, w').
Proof.
  destruct (find_latest_version_then_eq Fixture.world 1 Fixture.app_obj
              (Some "v1.2.0") Fixture.publish ∅ eq_refl)
    as (d2 & w' & Hrun & Hne & _ & _ & Hsame).
  { vm_compute. reflexivity. }
  exists d2, w'. split; [exact Hrun|]. split; [exact Hne|].
  apply Hsame. reflexivity.
Defined.

Lemma create_descriptor_propagates_witness :
  (create_descriptor VNone (VInt 7) (OVal (VStr "bogus")) (Some "/cache")
     None false None Fixture.world).1
  = Raise (TankDescriptorError "invalid descriptor")
  ∧ heap (create_descriptor VNone (VInt 7) (OVal (VStr "bogus"))
            (Some "/cache") None false None Fixture.world).2
    = heap Fixture.world
  ∧ disk (create_descriptor VNone (VInt 7) (OVal (VStr "bogus"))
            (Some "/cache") None false None Fixture.world).2
    = ∅.
Proof.
  apply (create_descriptor_propagates VNone (VInt 7) (OVal (VStr "bogus"))
           (Some "/cache") None false None Fixture.world
           (TankDescriptorError "invalid descriptor") ∅).
  vm_compute. reflexivity.
Defined.

Lemma create_descriptor_rejects_late_witness :
  (create_descriptor VNone (VInt 7)
     (ODict (Fixture.tag_dict Fixture.publish)) None None false None
     Fixture.world).1
  = Raise (TankDescriptorError "Unsupported descriptor type 7")
  ∧ heap (create_descriptor VNone (VInt 7)
            (ODict (Fixture.tag_dict Fixture.publish)) None None false None
            Fixture.world).2
    = heap Fixture.world.
Proof.
  assert (Hbuilt :
    io_descriptor.create_io_descriptor
      (factory_args VNone (VInt 7) (ODict (Fixture.tag_dict Fixture.publish))
         (default default_bundle_cache_root None) None false None)
      (disk (world_at_construction None Fixture.world))
    = (Return {| Fixture.tag_name := "tk-multi-publish";
                 Fixture.tag_version := "v1.2.0";
                 Fixture.tag_root := "/home/artist/.shotgun/bundle_cache" |},
       {[ "/home/artist/.shotgun/bundle_cache" ]})).
  { vm_compute. reflexivity. }
  assert (Hkind : ¬ recognised (VInt 7)).
  { rewrite recognised_int. lia. }
  destruct (create_descriptor_rejects_late _ _ _ _ _ _ _ _ _ _ Hbuilt Hkind)
    as (_ & Hraise & Hheap & _).
  split; [exact (Hraise "7" eq_refl) | exact Hheap].
Defined.

Lemma create_descriptor_heap_frame_witness :
  heap Fixture.world !! 1%positive = Some Fixture.app_obj
  ∧ heap (create_descriptor VNone (VInt Descriptor.CORE)
            (ODict (Fixture.tag_dict Fixture.publish)) None None false None
            Fixture.world).2 !! 1%positive
    = Some Fixture.app_obj.
Proof.
  split; [reflexivity|].
  destruct (create_descriptor_heap_frame VNone (VInt Descriptor.CORE)
              (ODict (Fixture.tag_dict Fixture.publish)) None None false None
              Fixture.world) as [Hkeep _].
  apply Hkeep. reflexivity.
Defined.

Lemma create_descriptor_then_accessors_witness :
  ∃ (d : positive) (w' : World),
    create_descriptor VNone (VInt Descriptor.FRAMEWORK)
      (ODict (Fixture.tag_dict Fixture.publish)) (Some "/cache") None
      false None Fixture.world = (Return d, w')
    ∧ Descriptor.version d w' = (Return "v1.2.0", w')
    ∧ Descriptor.__str__ d w' = (Return "tk-multi-publish v1.2.0", w').
Proof.
  destruct (create_descriptor_then_accessors VNone Descriptor.FRAMEWORK
              FrameworkDescriptor (ODict (Fixture.tag_dict Fixture.publish))
              (Some "/cache") None false None Fixture.world
              Fixture.publish ∅)
    as (d & w' & Hrun & _ & Hversion & _ & _ & _ & _ & _ & Hstr).
  { vm_compute. reflexivity. }
  { apply kind_variants_cases. auto 10. }
  exists d, w'. split; [exact Hrun|]. split; [exact Hversion | exact Hstr].
Defined.

Lemma create_descriptor_twice_eq_witness :
  ∃ d1 d2 : positive,
    (create_descriptor VNone (VInt Descriptor.APP)
       (ODict (Fixture.tag_dict Fixture.publish)) (Some "/cache") None
       false None Fixture.world).1 = Return d1
    ∧ (create_descriptor VNone (VInt Descriptor.APP)
         (ODict (Fixture.tag_dict Fixture.publish)) (Some "/cache/") None
         false None
         (create_descriptor VNone (VInt Descriptor.APP)
            (ODict (Fixture.tag_dict Fixture.publish)) (Some "/cache") None
            false None Fixture.world).2).1 = Return d2
    ∧ d1 ≠ d2.
Proof.
  destruct (create_descriptor_twice_eq VNone VNone
              Descriptor.APP Descriptor.APP AppDescriptor AppDescriptor
              (ODict (Fixture.tag_dict Fixture.publish))
              (ODict (Fixture.tag_dict Fixture.publish))
              (Some "/cache") (Some "/cache/") None None false false
              None None Fixture.world Fixture.publish Fixture.publish_alt
              ∅ ∅)
    as (d1 & d2 & H1 & H2 & Hne & _).
  { apply kind_variants_cases. auto 10. }
  { apply kind_variants_cases. auto 10. }
  { vm_compute. reflexivity. }
  { vm_compute. reflexivity. }
  exists d1, d2. split; [exact H1|]. split; [exact H2 | exact Hne].
Defined.

Lemma manifest_entry_returned_unless_none_witness :
  Descriptor.documentation_url 1%positive Fixture.world_local
  = (Return VNone, Fixture.world_local).
Proof.
  assert (Hm : io_descriptor.get_manifest (_io_descriptor Fixture.app_obj)
                 (disk Fixture.world_local)
               = ODict Fixture.publish_manifest).
  { vm_compute. reflexivity. }
  destruct (manifest_entry_returned_unless_none Fixture.world_local 1
              Fixture.app_obj Fixture.publish_manifest eq_refl Hm)
    as (_ & _ & _ & Hdoc & _).
  apply Hdoc. reflexivity.
Defined.

Lemma manifest_not_a_mapping_witness :
  @Descriptor.description Fixture.no_mapping_backend 1%positive Fixture.world
  = (Raise (AttributeError "object has no attribute 'get'"), Fixture.world).
Proof.
  destruct (@manifest_not_a_mapping Fixture.no_mapping_backend
              Fixture.world 1 Fixture.app_obj VNone eq_refl eq_refl)
    as (_ & Hdesc & _).
  exact Hdesc.
Defined.

Lemma icon_256_total_and_absolute_witness :
  ∃ icon : string,
    Descriptor.icon_256 1%positive Fixture.world_local
    = (Return icon, Fixture.world_local)
    ∧ posixpath.isabs icon = true.
Proof.
  destruct (icon_256_total_and_absolute Fixture.world_local 1
              Fixture.app_obj eq_refl) as (icon & Hrun & _ & Habs).
  exists icon. split; [exact Hrun|]. apply Habs; reflexivity.
Defined.

Module errors_witnesses.
Import errors.

Lemma message_never_empty_witness :
  construct true TankFileDoesNotExistError [VStr ""]
  = Built {| error_class := TankFileDoesNotExistError;
             message := VStr "TankFileDoesNotExistError" |}
  ∧ construct true TankErrorProjectIsSetup [VStr "again"] = TypeError.
Proof.
  split.
  - destruct (errors_facts.message_never_empty TankFileDoesNotExistError [])
      as (_ & _ & Hplain & _).
    destruct Hplain as (_ & Hone & _); [discriminate|].
    exact (Hone (VStr "")).
  - destruct (errors_facts.message_never_empty TankErrorProjectIsSetup
                [VStr "again"]) as (_ & Hsetup & _).
    destruct (Hsetup eq_refl) as [_ Hargs]. apply Hargs. discriminate.
Defined.

Lemma issubclass_tree_witness :
  issubclass TankFileDoesNotExistError TankError = true.
Proof.
  destruct (errors_facts.issubclass_tree TankFileDoesNotExistError
              TankUnreadableFileError TankError) as (_ & _ & Htrans & _).
  apply Htrans; reflexivity.
Defined.

End errors_witnesses.
